(** * video_transcoder.py: a shallow embedding and its verified properties

    The script walks a folder, keeps the files whose extension is in
    [VIDEO_EXTENSIONS], and runs [ffmpeg] on each of them.  Everything it
    does is an effect: console output, a prompt, the file system, external
    processes.  The embedding threads an explicit [world] (file system,
    pending console input) through a small state-and-exception monad that
    also collects the events emitted; the operating system's process
    facility is a parameter [exec], free to answer anything and to change
    the file system.

    Scope of the model.  Python [str] values are [string]s restricted to
    ASCII (one character per byte); [pathlib] paths are their [parts], on
    POSIX; the file system knows regular files and directories, no links
    and no permissions; [rglob] is taken as the list of entries at the
    moment the loop starts.  The Python functions return [None]; here each
    returns a tag naming the [return] it left through. *)

From Stdlib Require Import String Ascii List ZArith NArith Lia Bool Arith DecimalString.
Import ListNotations.
Open Scope string_scope.

(* ================================================================= *)
(** ** Python [str] operations used by the script *)

Module PyStr.

Definition lower_char (c : ascii) : ascii :=
  if (Ascii.leb "A" c && Ascii.leb c "Z")%bool
  then ascii_of_N (N_of_ascii c + 32) else c.

(** [s.lower()] *)
Fixpoint lower (s : string) : string :=
  match s with
  | EmptyString => EmptyString
  | String c r => String (lower_char c) (lower r)
  end.

(** [c.isspace()] on ASCII: TAB..CR, FS..US and the space. *)
Definition isspace (c : ascii) : bool :=
  let n := N_of_ascii c in
  ((9 <=? n) && (n <=? 13) || (28 <=? n) && (n <=? 32))%N%bool.

Fixpoint lstrip (s : string) : string :=
  match s with
  | EmptyString => EmptyString
  | String c r => if isspace c then lstrip r else s
  end.

Fixpoint rstrip (s : string) : string :=
  match s with
  | EmptyString => EmptyString
  | String c r =>
      match rstrip r with
      | EmptyString => if isspace c then EmptyString else String c EmptyString
      | r' => String c r'
      end
  end.

(** [s.strip()] *)
Definition strip (s : string) : string := lstrip (rstrip s).

(** [s.rfind(c)], with [None] for -1. *)
Fixpoint rfind (c : ascii) (s : string) : option nat :=
  match s with
  | EmptyString => None
  | String x r =>
      match rfind c r with
      | Some i => Some (S i)
      | None => if Ascii.eqb x c then Some 0 else None
      end
  end.

(** [s[:n]] and [s[n:]] for [0 <= n]. *)
Fixpoint take (n : nat) (s : string) : string :=
  match n, s with
  | S k, String c r => String c (take k r)
  | _, _ => EmptyString
  end.

Fixpoint drop (n : nat) (s : string) : string :=
  match n, s with
  | S k, String _ r => drop k r
  | _, _ => s
  end.

(** [c in s] *)
Fixpoint contains (c : ascii) (s : string) : bool :=
  match s with
  | EmptyString => false
  | String x r => Ascii.eqb x c || contains c r
  end.

Definition startswith (p s : string) : bool := String.prefix p s.

(** [s.split(c)] for a one-character separator. *)
Fixpoint split (c : ascii) (s : string) : list string :=
  match s with
  | EmptyString => [EmptyString]
  | String x r =>
      if Ascii.eqb x c then EmptyString :: split c r
      else match split c r with
           | [] => [String x EmptyString]
           | h :: t => String x h :: t
           end
  end.

(** [sep.join(l)] *)
Definition join (sep : string) (l : list string) : string := String.concat sep l.

(** [s * n] *)
Fixpoint times (s : string) (n : nat) : string :=
  match n with
  | O => EmptyString
  | S k => s ++ times s k
  end.

(** [str(n)] for a non-negative [int]. *)
Definition of_nat (n : nat) : string := NilZero.string_of_uint (Nat.to_uint n).

(** Truthiness of a [str]. *)
Definition truthy (s : string) : bool := negb (s =? "").

End PyStr.

(* ================================================================= *)
(** ** Exceptions *)

Inductive exn_class : Type :=
| TimeoutExpired | CalledProcessError | SubprocessError
| FileNotFoundError | FileExistsError | PermissionError
| IsADirectoryError | NotADirectoryError | OSError
| ValueError | EOFError | KeyboardInterrupt.

Record exn : Type := mkExn { exn_cls : exn_class; exn_msg : string }.

(** [isinstance(e, subprocess.SubprocessError)] *)
Definition is_SubprocessError (e : exn) : bool :=
  match exn_cls e with
  | TimeoutExpired | CalledProcessError | SubprocessError => true
  | _ => false
  end.

(** [isinstance(e, subprocess.TimeoutExpired)] *)
Definition is_TimeoutExpired (e : exn) : bool :=
  match exn_cls e with TimeoutExpired => true | _ => false end.

(** [isinstance(e, FileNotFoundError)] *)
Definition is_FileNotFoundError (e : exn) : bool :=
  match exn_cls e with FileNotFoundError => true | _ => false end.

(** [isinstance(e, Exception)]: everything but the [BaseException]-only
    classes, of which the model has [KeyboardInterrupt]. *)
Definition is_Exception (e : exn) : bool :=
  match exn_cls e with KeyboardInterrupt => false | _ => true end.

Inductive outcome (A : Type) : Type :=
| Ret (a : A)
| Raise (e : exn).
Arguments Ret {A} a.
Arguments Raise {A} e.

(* ================================================================= *)
(** ** [pathlib] on POSIX: a path is its tuple of [parts] *)

Definition path : Type := list string.

Module pathlib.

Definition keep_part (c : string) : bool := negb (c =? "") && negb (c =? ".").

(** [Path(s)]: the anchor ["/"] when [s] is absolute, then the components
    with empty ones and ["."] dropped. *)
Definition Path (s : string) : path :=
  let comps := filter keep_part (PyStr.split "/" s) in
  if PyStr.startswith "/" s then "/" :: comps else comps.

Definition is_absolute (p : path) : bool :=
  match p with a :: _ => a =? "/" | [] => false end.

(** [str(p)] *)
Definition str (p : path) : string :=
  match p with
  | [] => "."
  | a :: r => if a =? "/" then "/" ++ PyStr.join "/" r else PyStr.join "/" p
  end.

(** [p.name] *)
Definition name (p : path) : string :=
  match p with
  | [] => ""
  | [a] => if a =? "/" then "" else a
  | _ => last p ""
  end.

(** [p.suffix]: from the last dot of the name, unless that dot is the
    first or the last character. *)
Definition suffix (p : path) : string :=
  let n := name p in
  match PyStr.rfind "." n with
  | Some i =>
      if ((0 <? i) && (i <? String.length n - 1))%nat then PyStr.drop i n else ""
  | None => ""
  end.

(** [p.stem] *)
Definition stem (p : path) : string :=
  let n := name p in
  match PyStr.rfind "." n with
  | Some i =>
      if ((0 <? i) && (i <? String.length n - 1))%nat then PyStr.take i n else n
  | None => n
  end.

Definition valid_name (n : string) : bool :=
  negb (n =? "") && negb (PyStr.contains "/" n) && negb (n =? ".").

Definition valid_suffix (s : string) : bool :=
  negb (PyStr.contains "/" s) &&
  ((s =? "") || (PyStr.startswith "." s && negb (s =? "."))).

(** [p.with_name(n)] *)
Definition with_name (p : path) (n : string) : outcome path :=
  if name p =? "" then Raise (mkExn ValueError (str p ++ " has an empty name"))
  else if negb (valid_name n) then Raise (mkExn ValueError ("Invalid name " ++ n))
  else Ret (removelast p ++ [n])%list.

(** [p.with_suffix(s)] *)
Definition with_suffix (p : path) (s : string) : outcome path :=
  if negb (valid_suffix s) then Raise (mkExn ValueError ("Invalid suffix " ++ s))
  else if name p =? "" then Raise (mkExn ValueError (str p ++ " has an empty name"))
  else
    let old := suffix p in
    let n := name p in
    let n' := if old =? "" then n ++ s
              else PyStr.take (String.length n - String.length old) n ++ s in
    Ret (removelast p ++ [n'])%list.

(** [p.parent] *)
Definition parent (p : path) : path :=
  match p with
  | [] => []
  | [a] => if a =? "/" then p else []
  | _ => removelast p
  end.

(** [p / q] *)
Definition truediv (p q : path) : path :=
  if is_absolute q then q else (p ++ q)%list.

Fixpoint is_prefix (b p : path) : bool :=
  match b, p with
  | [], _ => true
  | x :: b', y :: p' => (x =? y) && is_prefix b' p'
  | _ :: _, [] => false
  end.

(** [p.relative_to(b)] *)
Definition relative_to (p b : path) : outcome path :=
  if Bool.eqb (is_absolute b) (is_absolute p) && is_prefix b p
  then Ret (skipn (List.length b) p)
  else Raise (mkExn ValueError (str p ++ " is not in the subpath of " ++ str b)).

End pathlib.

(* ================================================================= *)
(** ** The world: file system, console, event trace *)

Fixpoint path_eqb (p q : path) : bool :=
  match p, q with
  | [], [] => true
  | x :: p', y :: q' => (x =? y) && path_eqb p' q'
  | _, _ => false
  end.

Inductive kind : Type := KFile | KDir.

(** The file system: the entries in the order in which a directory walk
    yields them.  The current directory [[]] and the root [["/"]] always
    exist. *)
Definition fs : Type := list (path * kind).

Fixpoint fs_find (p : path) (f : fs) : option kind :=
  match f with
  | [] => None
  | (q, k) :: r => if path_eqb q p then Some k else fs_find p r
  end.

Definition is_root (p : path) : bool :=
  match p with
  | [] => true
  | [a] => a =? "/"
  | _ => false
  end.

Definition fs_kind (p : path) (f : fs) : option kind :=
  if is_root p then Some KDir else fs_find p f.

Definition fs_is_dir (p : path) (f : fs) : bool :=
  match fs_kind p f with Some KDir => true | _ => false end.

Definition fs_is_file (p : path) (f : fs) : bool :=
  match fs_kind p f with Some KFile => true | _ => false end.

Definition fs_exists (p : path) (f : fs) : bool :=
  match fs_kind p f with Some _ => true | None => false end.

Definition mk_exn (c : exn_class) (p : path) : exn := mkExn c (pathlib.str p).

(** [os.mkdir(p)] *)
Definition os_mkdir (p : path) (f : fs) : outcome fs :=
  match fs_kind p f with
  | Some _ => Raise (mk_exn FileExistsError p)
  | None =>
      match fs_kind (pathlib.parent p) f with
      | Some KDir => Ret (f ++ [(p, KDir)])%list
      | Some KFile => Raise (mk_exn NotADirectoryError p)
      | None => Raise (mk_exn FileNotFoundError p)
      end
  end.

(** [Path.mkdir(parents, exist_ok)], as pathlib writes it: try [os.mkdir];
    on [FileNotFoundError] create the parent first (when [parents]); on any
    other [OSError] give in only when [exist_ok] and the path is a
    directory.  The recursion is on the parent, so the number of parts is
    enough fuel. *)
Fixpoint mkdir_rec (fuel : nat) (parents exist_ok : bool) (p : path) (f : fs)
  : outcome fs :=
  match os_mkdir p f with
  | Ret f' => Ret f'
  | Raise e =>
      if is_FileNotFoundError e then
        if negb parents || path_eqb (pathlib.parent p) p then Raise e
        else
          match fuel with
          | O => Raise e
          | S k =>
              match mkdir_rec k true true (pathlib.parent p) f with
              | Ret f1 => mkdir_rec k false exist_ok p f1
              | Raise e' => Raise e'
              end
          end
      else if negb exist_ok || negb (fs_is_dir p f) then Raise e
      else Ret f
  end.

Definition fs_mkdir (parents exist_ok : bool) (p : path) (f : fs) : outcome fs :=
  mkdir_rec (List.length p) parents exist_ok p f.

Fixpoint fs_remove (p : path) (f : fs) : fs :=
  match f with
  | [] => []
  | (q, k) :: r => if path_eqb q p then fs_remove p r else (q, k) :: fs_remove p r
  end.

(** [Path.unlink()] *)
Definition fs_unlink (p : path) (f : fs) : outcome fs :=
  match fs_kind p f with
  | Some KFile => Ret (fs_remove p f)
  | Some KDir => Raise (mk_exn IsADirectoryError p)
  | None => Raise (mk_exn FileNotFoundError p)
  end.

Definition strictly_under (b p : path) : bool :=
  pathlib.is_prefix b p && (List.length b <? List.length p)%nat.

(** [list(folder.rglob('*'))]: every entry below [folder]. *)
Definition fs_rglob (folder : path) (f : fs) : list path :=
  map fst (filter (fun e => strictly_under folder (fst e)) f).

(** What running a command does: it completes with an exit code and its
    captured output, or [subprocess.run] raises; either way the file system
    may have changed. *)
Inductive proc_outcome : Type :=
| Completed (returncode : Z) (stdout stderr : string)
| ProcRaise (e : exn).

Definition exec_t : Type := list string -> Z -> fs -> proc_outcome * fs.

Record CompletedProcess : Type := mkCompleted {
  returncode : Z;
  stdout : string;
  stderr : string
}.

(** Every interaction with the outside, with what came back. *)
Inductive event : Type :=
| EvPrint (line : string)
| EvInput (prompt : string) (answer : option string)
| EvRun (argv : list string) (timeout : Z) (result : proc_outcome)
| EvMkdir (p : path) (parents exist_ok : bool) (err : option exn)
| EvUnlink (p : path) (err : option exn).

Record world : Type := mkWorld {
  w_fs : fs;
  w_stdin : list string
}.

(* ================================================================= *)
(** ** The monad of the script: state, exceptions, and the events emitted *)

Definition M (A : Type) : Type := world -> outcome A * world * list event.

Definition ret {A} (a : A) : M A := fun w => (Ret a, w, []).

Definition bind {A B} (m : M A) (k : A -> M B) : M B :=
  fun w =>
    match m w with
    | (Ret a, w1, t1) => let '(r, w2, t2) := k a w1 in (r, w2, (t1 ++ t2)%list)
    | (Raise e, w1, t1) => (Raise e, w1, t1)
    end.

Declare Scope py_scope.
Delimit Scope py_scope with py.
Notation "x <- m ;; k" := (bind m (fun x => k))
  (at level 61, m at next level, right associativity) : py_scope.
Notation "m ;; k" := (bind m (fun _ => k))
  (at level 61, right associativity) : py_scope.
Open Scope py_scope.

(** [try: m  except C1: h1  except C2: h2 ...]: the first clause whose
    class test accepts the exception handles it. *)
Fixpoint select_handler {A} (hs : list ((exn -> bool) * (exn -> M A))) (e : exn)
  : option (M A) :=
  match hs with
  | [] => None
  | (c, h) :: r => if c e then Some (h e) else select_handler r e
  end.

Definition try_except {A} (m : M A) (hs : list ((exn -> bool) * (exn -> M A))) : M A :=
  fun w =>
    match m w with
    | (Ret a, w1, t1) => (Ret a, w1, t1)
    | (Raise e, w1, t1) =>
        match select_handler hs e with
        | Some h => let '(r, w2, t2) := h w1 in (r, w2, (t1 ++ t2)%list)
        | None => (Raise e, w1, t1)
        end
    end.

Definition lift {A} (o : outcome A) : M A := fun w => (o, w, []).

Definition print (line : string) : M unit := fun w => (Ret tt, w, [EvPrint line]).

(** [input(prompt)] *)
Definition input (prompt : string) : M string :=
  fun w =>
    match w_stdin w with
    | [] => (Raise (mkExn EOFError "EOF when reading a line"), w, [EvInput prompt None])
    | l :: r => (Ret l, mkWorld (w_fs w) r, [EvInput prompt (Some l)])
    end.

Definition Path_exists (p : path) : M bool := fun w => (Ret (fs_exists p (w_fs w)), w, []).
Definition Path_is_dir (p : path) : M bool := fun w => (Ret (fs_is_dir p (w_fs w)), w, []).
Definition Path_is_file (p : path) : M bool := fun w => (Ret (fs_is_file p (w_fs w)), w, []).
Definition Path_rglob (p : path) : M (list path) := fun w => (Ret (fs_rglob p (w_fs w)), w, []).

Definition on_fs (op : fs -> outcome fs) (ev : option exn -> event) : M unit :=
  fun w =>
    match op (w_fs w) with
    | Ret f' => (Ret tt, mkWorld f' (w_stdin w), [ev None])
    | Raise x => (Raise x, w, [ev (Some x)])
    end.

Definition Path_mkdir (p : path) (parents exist_ok : bool) : M unit :=
  on_fs (fs_mkdir parents exist_ok p) (EvMkdir p parents exist_ok).

Definition Path_unlink (p : path) : M unit :=
  on_fs (fs_unlink p) (EvUnlink p).

Definition nl : string := String (ascii_of_nat 10) EmptyString.

(* ================================================================= *)
(** ** The script *)

Definition VIDEO_EXTENSIONS : list string :=
  [".avi"; ".mkv"; ".mov"; ".wmv"; ".flv"; ".webm"; ".m4v";
   ".mpg"; ".mpeg"; ".3gp"; ".asf"; ".rm"; ".rmvb"; ".vob";
   ".ts"; ".mts"; ".m2ts"; ".divx"; ".xvid"; ".ogv"].

Definition str_in (s : string) (l : list string) : bool := existsb (String.eqb s) l.

(** [is_video_file] *)
Definition is_video_file (file_path : path) : bool :=
  str_in (PyStr.lower (pathlib.suffix file_path)) VIDEO_EXTENSIONS.

Definition ffprobe_cmd (file_path : path) : list string :=
  ["ffprobe"; "-v"; "quiet"; "-select_streams"; "v:0";
   "-show_entries"; "stream=codec_name"; "-of"; "csv=p=0";
   pathlib.str file_path].

Definition ffmpeg_cmd (input_path output_path : path) : list string :=
  ["ffmpeg";
   "-i"; pathlib.str input_path;
   "-c:v"; "libx264";
   "-crf"; "23";
   "-preset"; "medium";
   "-c:a"; "aac";
   "-b:a"; "128k";
   "-movflags"; "+faststart";
   "-y";
   pathlib.str output_path].

(** Which [return] (or the end of the body) a call left through; the
    Python functions return [None] everywhere. *)
Inductive run_report : Type :=
| FolderMissing
| NotADirectory
| ToolNotFound
| NothingToTranscode
| Finished (success_count total : nat).

Inductive main_report : Type :=
| Usage
| UnknownArgument (arg : string)
| ConflictingOptions
| Cancelled
| Ran (r : run_report).

Inductive parsed_args : Type :=
| Parsed (output_folder : option string) (replace_original : bool)
| Unknown (arg : string).

(** Truthiness of a value that is [None] or a [str]. *)
Definition truthy_opt (o : option string) : bool :=
  match o with
  | Some s => PyStr.truthy s
  | None => false
  end.

(** The [while i < len(sys.argv)] loop of [main], on [sys.argv[i:]]. *)
Fixpoint parse_args (args : list string) (output_folder : option string)
  (replace_original : bool) : parsed_args :=
  match args with
  | [] => Parsed output_folder replace_original
  | a :: rest =>
      let otherwise :=
        if a =? "--replace-original" then parse_args rest output_folder true
        else Unknown a in
      match rest with
      | v :: rest' =>
          (* [i + 1 < len(sys.argv)] *)
          if a =? "--output-folder" then parse_args rest' (Some v) replace_original
          else otherwise
      | [] => otherwise
      end
  end.

Definition summary_line (success_count total : nat) : string :=
  "Transcoding complete: " ++ PyStr.of_nat success_count ++ "/"
    ++ PyStr.of_nat total ++ " successful".

Definition skip_prefix : string := "Skipping (already H.264 MP4): ".

Section Script.

(** The process facility of the host. *)
Variable exec : exec_t.

(** [subprocess.run(cmd, capture_output=True, timeout=t)] without
    [check=True]: the exit code is returned, never raised. *)
Definition subprocess_run (cmd : list string) (timeout : Z) : M CompletedProcess :=
  fun w =>
    let '(o, f') := exec cmd timeout (w_fs w) in
    let w' := mkWorld f' (w_stdin w) in
    match o with
    | Completed rc out err => (Ret (mkCompleted rc out err), w', [EvRun cmd timeout o])
    | ProcRaise e => (Raise e, w', [EvRun cmd timeout o])
    end.

(** [is_already_h264_mp4] *)
Definition is_already_h264_mp4 (file_path : path) : M bool :=
  if negb (PyStr.lower (pathlib.suffix file_path) =? ".mp4") then ret false
  else
    try_except
      (result <- subprocess_run (ffprobe_cmd file_path) 10 ;;
       ret (PyStr.lower (PyStr.strip (stdout result)) =? "h264"))
      [(fun e => is_TimeoutExpired e || is_SubprocessError e,
        fun _ => ret false)].

(** [transcode_video] *)
Definition transcode_video (input_path output_path : path) : M bool :=
  let cmd := ffmpeg_cmd input_path output_path in
  print ("Transcoding: " ++ pathlib.name input_path) ;;
  print ("Command: " ++ PyStr.join " " cmd) ;;
  try_except
    (result <- subprocess_run cmd 3600 ;;
     if (returncode result =? 0)%Z then
       print ("✓ Successfully transcoded: " ++ pathlib.str output_path) ;;
       ret true
     else
       print ("✗ Error transcoding " ++ pathlib.name input_path ++ ":") ;;
       print (stderr result) ;;
       ret false)
    [(is_TimeoutExpired,
      fun _ =>
        print ("✗ Timeout transcoding " ++ pathlib.name input_path) ;;
        ret false);
     (is_Exception,
      fun e =>
        print ("✗ Exception transcoding " ++ pathlib.name input_path
               ++ ": " ++ exn_msg e) ;;
        ret false)].

(** Lines 103-109 of [find_and_transcode_videos]: the scan. *)
Fixpoint scan_videos (entries : list path) (video_files : list path)
  : M (list path) :=
  match entries with
  | [] => ret video_files
  | file_path :: rest =>
      is_file <- Path_is_file file_path ;;
      if is_file && is_video_file file_path then
        already <- is_already_h264_mp4 file_path ;;
        if negb already then scan_videos rest (video_files ++ [file_path])%list
        else
          print (skip_prefix ++ pathlib.name file_path) ;;
          scan_videos rest video_files
      else scan_videos rest video_files
  end.

(** Lines 125-137: where the output of one input goes. *)
Definition determine_output_path (folder : path) (output_folder : option string)
  (replace_original : bool) (input_path : path) : M path :=
  match output_folder with
  | Some out =>
      if PyStr.truthy out then
        let output_dir := pathlib.Path out in
        Path_mkdir output_dir true true ;;
        rel_path <- lift (pathlib.relative_to input_path folder) ;;
        rel_mp4 <- lift (pathlib.with_suffix rel_path ".mp4") ;;
        let output_path := pathlib.truediv output_dir rel_mp4 in
        Path_mkdir (pathlib.parent output_path) true true ;;
        ret output_path
      else if replace_original then lift (pathlib.with_suffix input_path ".mp4")
      else lift (pathlib.with_name input_path (pathlib.stem input_path ++ "_h264.mp4"))
  | None =>
      if replace_original then lift (pathlib.with_suffix input_path ".mp4")
      else lift (pathlib.with_name input_path (pathlib.stem input_path ++ "_h264.mp4"))
  end.

(** Lines 142-148: remove the original after a successful transcode. *)
Definition remove_original (replace_original : bool) (input_path output_path : path)
  : M unit :=
  if replace_original && negb (path_eqb input_path output_path) then
    try_except
      (Path_unlink input_path ;;
       print ("Removed original: " ++ pathlib.name input_path))
      [(is_Exception,
        fun e => print ("Warning: Could not remove original file: " ++ exn_msg e))]
  else ret tt.

(** Lines 122-148: the loop over the candidates, from index [i], with
    the running [success_count]. *)
Fixpoint transcode_all (folder : path) (output_folder : option string)
  (replace_original : bool) (total : nat) (i : nat) (video_files : list path)
  (success_count : nat) : M nat :=
  match video_files with
  | [] => ret success_count
  | input_path :: rest =>
      print (nl ++ "[" ++ PyStr.of_nat i ++ "/" ++ PyStr.of_nat total ++ "]") ;;
      output_path <- determine_output_path folder output_folder replace_original
                       input_path ;;
      ok <- transcode_video input_path output_path ;;
      if ok then
        remove_original replace_original input_path output_path ;;
        transcode_all folder output_folder replace_original total (S i) rest
          (success_count + 1)
      else
        transcode_all folder output_folder replace_original total (S i) rest
          success_count
  end.

(** Lines 116-117 *)
Fixpoint print_found (i : nat) (video_files : list path) : M unit :=
  match video_files with
  | [] => ret tt
  | video :: rest =>
      print (PyStr.of_nat i ++ ". " ++ pathlib.str video) ;;
      print_found (S i) rest
  end.

(** Lines 94-98: [True] when the version probe did not raise one of the
    two caught classes. *)
Definition check_ffmpeg : M bool :=
  try_except
    (subprocess_run ["ffmpeg"; "-version"] 5 ;; ret true)
    [(fun e => is_SubprocessError e || is_FileNotFoundError e,
      fun _ =>
        print "Error: FFmpeg not found. Please install FFmpeg and ensure it's in your PATH." ;;
        ret false)].

(** [find_and_transcode_videos] *)
Definition find_and_transcode_videos (folder_path : string)
  (output_folder : option string) (replace_original : bool) : M run_report :=
  let folder := pathlib.Path folder_path in
  ex <- Path_exists folder ;;
  if negb ex then
    print ("Error: Folder '" ++ folder_path ++ "' does not exist.") ;;
    ret FolderMissing
  else
    dir <- Path_is_dir folder ;;
    if negb dir then
      print ("Error: '" ++ folder_path ++ "' is not a directory.") ;;
      ret NotADirectory
    else
      found <- check_ffmpeg ;;
      if negb found then ret ToolNotFound
      else
        print ("Scanning for videos in: " ++ pathlib.str folder) ;;
        print (PyStr.times "-" 50) ;;
        entries <- Path_rglob folder ;;
        video_files <- scan_videos entries [] ;;
        match video_files with
        | [] =>
            print "No videos found that need transcoding." ;;
            ret NothingToTranscode
        | _ =>
            let total := List.length video_files in
            print (nl ++ "Found " ++ PyStr.of_nat total ++ " video(s) to transcode:") ;;
            print_found 1 video_files ;;
            print (nl ++ PyStr.times "=" 50) ;;
            success_count <- transcode_all folder output_folder replace_original
                               total 1 video_files 0 ;;
            print (nl ++ PyStr.times "=" 50) ;;
            print (summary_line success_count total) ;;
            ret (Finished success_count total)
        end.

Definition print_usage : M unit :=
  print "Usage: python transcode_videos.py <folder_path> [options]" ;;
  print (nl ++ "Options:") ;;
  print "  --output-folder <path>  : Save transcoded files to separate folder" ;;
  print "  --replace-original      : Replace original files (use with caution!)" ;;
  print (nl ++ "Example:") ;;
  print "  python transcode_videos.py /path/to/videos" ;;
  print "  python transcode_videos.py /path/to/videos --output-folder /path/to/output".

Definition confirm_prompt : string :=
  "Warning: This will replace original files. Continue? (y/N): ".

(** [main], on [sys.argv] *)
Definition main (argv : list string) : M main_report :=
  match argv with
  | [] | [_] => print_usage ;; ret Usage
  | _ :: folder_path :: args =>
      match parse_args args None false with
      | Unknown a =>
          print ("Unknown argument: " ++ a) ;;
          ret (UnknownArgument a)
      | Parsed output_folder replace_original =>
          if replace_original && truthy_opt output_folder then
            print "Error: Cannot use --replace-original with --output-folder" ;;
            ret ConflictingOptions
          else
            go <- (if replace_original then
                     response <- input confirm_prompt ;;
                     if negb (PyStr.lower response =? "y") then
                       print "Cancelled." ;; ret false
                     else ret true
                   else ret true) ;;
            if negb go then ret Cancelled
            else
              r <- find_and_transcode_videos folder_path output_folder
                     replace_original ;;
              ret (Ran r)
      end
  end.

End Script.

(* ================================================================= *)
(** ** Vocabulary of the statements *)

(** A well-formed option of the command line and the tokens it stands for. *)
Inductive cli_option : Type :=
| OptOutputFolder (value : string)
| OptReplaceOriginal.

Definition render_option (o : cli_option) : list string :=
  match o with
  | OptOutputFolder v => ["--output-folder"; v]
  | OptReplaceOriginal => ["--replace-original"]
  end.

Definition render (opts : list cli_option) : list string := flat_map render_option opts.

Fixpoint last_output_folder (opts : list cli_option) (o : option string) : option string :=
  match opts with
  | [] => o
  | OptOutputFolder v :: r => last_output_folder r (Some v)
  | OptReplaceOriginal :: r => last_output_folder r o
  end.

Fixpoint any_replace (opts : list cli_option) (b : bool) : bool :=
  match opts with
  | [] => b
  | OptOutputFolder _ :: r => any_replace r b
  | OptReplaceOriginal :: r => any_replace r true
  end.

Definition is_run (e : event) : bool :=
  match e with EvRun _ _ _ => true | _ => false end.

Definition is_input (e : event) : bool :=
  match e with EvInput _ _ => true | _ => false end.

Definition is_print (e : event) : bool :=
  match e with EvPrint _ => true | _ => false end.

Definition is_mkdir (e : event) : bool :=
  match e with EvMkdir _ _ _ _ => true | _ => false end.

(** A string of white space only. *)
Fixpoint all_space (s : string) : bool :=
  match s with
  | EmptyString => true
  | String c r => PyStr.isspace c && all_space r
  end.

Definition is_unlink (e : event) : bool :=
  match e with EvUnlink _ _ => true | _ => false end.

(** An event that touches a file or starts a process. *)
Definition is_side_effect (e : event) : bool :=
  match e with
  | EvRun _ _ _ | EvMkdir _ _ _ _ | EvUnlink _ _ => true
  | _ => false
  end.

(** The encoder runs of a trace: the invocations with the one-hour wait. *)
Definition is_encoder_run (e : event) : bool :=
  match e with
  | EvRun ("ffmpeg" :: "-i" :: _) 3600 _ => true
  | _ => false
  end.

Definition exit_zero (o : proc_outcome) : bool :=
  match o with
  | Completed rc _ _ => (rc =? 0)%Z
  | ProcRaise _ => false
  end.

(** The encoder did not succeed, in one of the ways [transcode_video]
    recovers from: a non-zero exit code, a timeout, or any other
    [Exception] raised by the invocation. *)
Definition encoder_failed (o : proc_outcome) : bool :=
  match o with
  | Completed rc _ _ => negb (rc =? 0)%Z
  | ProcRaise e => is_Exception e
  end.

(** The two things that can stop the candidate loop at candidate [v] in the
    world [w] with the exception [e]: computing the output path raises [e],
    or the encoder invocation raises [e] and [e] is no [Exception]. *)
Definition loop_stopped_by (exec : exec_t) (folder : path)
  (output_folder : option string) (replace_original : bool)
  (v : path) (w : world) (e : exn) : Prop :=
  match determine_output_path folder output_folder replace_original v w with
  | (Raise e', _, _) => e' = e
  | (Ret out, w1, _) =>
      fst (exec (ffmpeg_cmd v out) 3600%Z (w_fs w1)) = ProcRaise e
      /\ is_Exception e = false
  end.

Definition is_encoder_success (e : event) : bool :=
  match e with
  | EvRun ("ffmpeg" :: "-i" :: _) 3600 o => exit_zero o
  | _ => false
  end.

Definition is_encoder_failure (e : event) : bool :=
  is_encoder_run e && negb (is_encoder_success e).

(** The input argument of an encoder run. *)
Definition encoder_input (e : event) : string :=
  match e with
  | EvRun (_ :: _ :: i :: _) _ _ => i
  | _ => ""
  end.

(** [f'] has every entry of [f], with its kind. *)
Definition fs_extends (f f' : fs) : Prop :=
  forall q k, fs_kind q f = Some k -> fs_kind q f' = Some k.

Definition map_outcome {A B} (f : A -> B) (o : outcome A) : outcome B :=
  match o with
  | Ret a => Ret (f a)
  | Raise e => Raise e
  end.

Definition version_probe (o : proc_outcome) : event :=
  EvRun ["ffmpeg"; "-version"] 5 o.

(** An event that is only talk: a printed line, or the version probe. *)
Definition chatter (e : event) : Prop :=
  is_print e = true \/ exists o, e = version_probe o.

(** The path, as text, that an [unlink] event is about. *)
Definition unlinked_path (e : event) : string :=
  match e with
  | EvUnlink p _ => pathlib.str p
  | _ => ""
  end.

(** The encoder invocation as the specification words it: H.264 video at
    quality factor 23 and preset medium, AAC audio at 128 kbit/s, the
    faststart container flag, overwrite without asking. *)
Definition encoder_template (input output : string) : list string :=
  ["ffmpeg"; "-i"; input;
   "-c:v"; "libx264"; "-crf"; "23"; "-preset"; "medium";
   "-c:a"; "aac"; "-b:a"; "128k";
   "-movflags"; "+faststart"; "-y"; output].

(** A process the script is written to start: the version probe of the
    encoder, or the encoder on some input and output. *)
Definition known_process (e : event) : Prop :=
  match e with
  | EvRun argv timeout _ =>
      (argv = ["ffmpeg"; "-version"] /\ timeout = 5%Z)
      \/ (timeout = 3600%Z /\ exists i o, argv = encoder_template i o)
  | _ => True
  end.

(** Every process run of a trace is an encoder run on one of [vs], with the
    fixed arguments and the one-hour wait. *)
Definition run_follows_template (vs : list path) (e : event) : Prop :=
  match e with
  | EvRun argv timeout _ =>
      timeout = 3600%Z
      /\ exists inp out, In inp vs
                         /\ argv = encoder_template (pathlib.str inp) (pathlib.str out)
  | _ => True
  end.

(** The lines that list the candidates found. *)
Fixpoint found_lines (i : nat) (video_files : list path) : list event :=
  match video_files with
  | [] => []
  | video :: rest =>
      EvPrint (PyStr.of_nat i ++ ". " ++ pathlib.str video) :: found_lines (S i) rest
  end.

(** What the scan of [folder] keeps in the file system [f]: the regular
    files below it whose extension is listed. *)
Definition scan_result (folder : path) (f : fs) : list path :=
  filter (fun p => fs_is_file p f && is_video_file p) (fs_rglob folder f).

Definition is_skip_line (e : event) : bool :=
  match e with
  | EvPrint l => PyStr.startswith skip_prefix l
  | _ => false
  end.

(* ================================================================= *)
(** ** Concrete hosts used by the examples *)

(** A folder with [a.avi], [b.mp4] and [c.txt]. *)
Definition fs_scenario : fs :=
  [(["root"], KDir);
   (["root"; "a.avi"], KFile);
   (["root"; "b.mp4"], KFile);
   (["root"; "c.txt"], KFile)].

(** A folder with one HEVC file [d.mp4]. *)
Definition fs_hevc : fs :=
  [(["root"], KDir); (["root"; "d.mp4"], KFile)].

(** Every tool is installed and succeeds; the probe answers [codec]. *)
Definition exec_codec (codec : string) : exec_t :=
  fun cmd _ f =>
    match cmd with
    | "ffprobe" :: _ => (Completed 0 (codec ++ nl) "", f)
    | _ => (Completed 0 "" "", f)
    end.

(** No tool is installed. *)
Definition exec_missing : exec_t :=
  fun cmd _ f => (ProcRaise (mkExn FileNotFoundError "No such file or directory"), f).

(** The probe prints the codec and then exits with a non-zero code. *)
Definition exec_probe_exit1 : exec_t :=
  fun cmd _ f => (Completed 1 ("h264" ++ nl) "error", f).

(** The encoder exits with code 1 on every input. *)
Definition exec_encoder_fails : exec_t :=
  fun cmd _ f =>
    match cmd with
    | "ffmpeg" :: "-i" :: _ => (Completed 1 "" "Invalid data found", f)
    | _ => (Completed 0 "" "", f)
    end.

(** A folder with two videos. *)
Definition fs_two_videos : fs :=
  [(["root"], KDir);
   (["root"; "a.avi"], KFile);
   (["root"; "b.mkv"], KFile)].

(** The encoder times out on [root/a.avi] and succeeds on everything else. *)
Definition exec_times_out_on_a : exec_t :=
  fun cmd _ f =>
    match cmd with
    | "ffmpeg" :: "-i" :: "root/a.avi" :: _ =>
        (ProcRaise (mkExn TimeoutExpired "timed out after 3600 seconds"), f)
    | _ => (Completed 0 "" "", f)
    end.

(** The encoder succeeds but removes its input behind the script's back. *)
Definition exec_consumes_input : exec_t :=
  fun cmd _ f =>
    match cmd with
    | "ffmpeg" :: "-i" :: i :: _ => (Completed 0 "" "", fs_remove (pathlib.Path i) f)
    | _ => (Completed 0 "" "", f)
    end.

(* ================================================================= *)
(** * Properties *)

(** ** The model at work *)

Example Path_abs : pathlib.Path "/srv//media/./x.AVI" = ["/"; "srv"; "media"; "x.AVI"].
Proof. reflexivity. Qed.

Example suffix_examples :
  map pathlib.suffix [["a.avi"]; ["d"; "b.tar.GZ"]; [".bashrc"]; ["x."]; ["/"]; []]
  = [".avi"; ".GZ"; ""; ""; ""; ""].
Proof. reflexivity. Qed.

Example with_suffix_example :
  pathlib.with_suffix ["d"; "clip.MoV"] ".mp4" = Ret ["d"; "clip.mp4"].
Proof. reflexivity. Qed.

Example strip_example : PyStr.lower (PyStr.strip "  H264
") = "h264".
Proof. reflexivity. Qed.

Example encoder_failure_run :
  fst (fst (main exec_encoder_fails ["prog"; "root"] (mkWorld fs_scenario [])))
  = Ret (Ran (Finished 0 1)).
Proof. vm_compute. reflexivity. Qed.

Example failure_then_success_run :
  let '(r, _, tr) :=
    main exec_times_out_on_a ["prog"; "root"] (mkWorld fs_two_videos []) in
  r = Ret (Ran (Finished 1 2))
  /\ map encoder_input (filter is_encoder_run tr) = ["root/a.avi"; "root/b.mkv"]
  /\ map encoder_input (filter is_encoder_success tr) = ["root/b.mkv"].
Proof. vm_compute. repeat split; reflexivity. Qed.

Example default_placement_run :
  let '(r, w', tr) := main (exec_codec "h264") ["prog"; "root"] (mkWorld fs_scenario []) in
  r = Ret (Ran (Finished 1 1))
  /\ filter is_encoder_run tr
     = [EvRun (encoder_template "root/a.avi" "root/a_h264.mp4") 3600 (Completed 0 "" "")]
  /\ last tr (EvPrint "") = EvPrint "Transcoding complete: 1/1 successful".
Proof. vm_compute. repeat split; reflexivity. Qed.

Example mkdir_exist_ok_matters :
  fs_mkdir true false ["root"] fs_scenario = Raise (mk_exn FileExistsError ["root"])
  /\ fs_mkdir true true ["root"] fs_scenario = Ret fs_scenario
  /\ fs_mkdir false true ["out"; "sub"] fs_scenario
     = Raise (mk_exn FileNotFoundError ["out"; "sub"])
  /\ fs_mkdir true true ["out"; "sub"] fs_scenario
     = Ret (fs_scenario ++ [(["out"], KDir); (["out"; "sub"], KDir)])%list.
Proof. repeat split; reflexivity. Qed.

(** ** The argument loop of [main] *)

Lemma parse_args_replace :
  forall rest o r,
    parse_args ("--replace-original" :: rest) o r = parse_args rest o true.
Proof.
  intros rest o r. destruct rest; reflexivity.
Qed.

Lemma parse_args_output :
  forall v rest o r,
    parse_args ("--output-folder" :: v :: rest) o r = parse_args rest (Some v) r.
Proof. reflexivity. Qed.

Lemma parse_args_render :
  forall opts tail o r,
    parse_args (render opts ++ tail)%list o r
    = parse_args tail (last_output_folder opts o) (any_replace opts r).
Proof.
  induction opts as [|[v|] opts IH]; intros tail o r.
  - reflexivity.
  - change (render (OptOutputFolder v :: opts) ++ tail)%list
      with ("--output-folder" :: v :: (render opts ++ tail))%list.
    rewrite parse_args_output. apply IH.
  - change (render (OptReplaceOriginal :: opts) ++ tail)%list
      with ("--replace-original" :: (render opts ++ tail))%list.
    rewrite parse_args_replace. apply IH.
Qed.

(** C9: when [--output-folder] is the last argument, in option position and
    with no value after it, [main] reports it as an unknown argument and
    returns: the world is unchanged, the only event is that message -- no
    prompt, no scan, no process. *)
Theorem C9_dangling_output_folder_is_unknown :
  forall (exec : exec_t) (prog folder_path : string) (opts : list cli_option) (w : world),
    main exec (prog :: folder_path :: render opts ++ ["--output-folder"])%list w
    = (Ret (UnknownArgument "--output-folder"), w,
       [EvPrint "Unknown argument: --output-folder"]).
Proof.
  intros exec prog folder_path opts w.
  unfold main. rewrite parse_args_render. reflexivity.
Qed.

Lemma truthy_nonempty : forall s, s <> "" -> PyStr.truthy s = true.
Proof.
  intros s H. unfold PyStr.truthy. apply negb_true_iff. now apply String.eqb_neq.
Qed.

(** C3, as stated, fails: with an empty value after [--output-folder] both
    flags are given, yet [main] asks for confirmation and goes on to
    transcode and delete. *)
Lemma C3_empty_output_folder_not_rejected :
  parse_args ["--output-folder"; ""; "--replace-original"] None false
    = Parsed (Some "") true
  /\ exists w' tr,
      main (exec_codec "h264")
        ["prog"; "root"; "--output-folder"; ""; "--replace-original"]
        (mkWorld fs_scenario ["y"])
      = (Ret (Ran (Finished 1 1)), w', tr)
      /\ existsb is_input tr = true
      /\ existsb is_encoder_run tr = true
      /\ fs_exists ["root"; "a.avi"] (w_fs w') = false.
Proof.
  split; [reflexivity|].
  eexists; eexists. split; [vm_compute; reflexivity|].
  repeat split; vm_compute; reflexivity.
Qed.

(** C3 (amended): when the arguments parse, [--replace-original] is given
    and the output folder is set to a non-empty value, [main] prints the
    conflict error and returns; the world is unchanged and that message is
    the only event: no prompt, no scan, no file touched, no process. *)
Theorem C3_conflicting_options_abort :
  forall (exec : exec_t) (prog folder_path : string) (args : list string)
         (v : string) (w : world),
    parse_args args None false = Parsed (Some v) true ->
    v <> "" ->
    main exec (prog :: folder_path :: args) w
    = (Ret ConflictingOptions, w,
       [EvPrint "Error: Cannot use --replace-original with --output-folder"]).
Proof.
  intros exec prog folder_path args v w Hparse Hv.
  unfold main. rewrite Hparse. cbn [andb truthy_opt].
  rewrite (truthy_nonempty v Hv). reflexivity.
Qed.

Lemma C3_conflicting_options_abort_witness :
  main exec_missing ["prog"; "root"; "--output-folder"; "out"; "--replace-original"]
    (mkWorld fs_scenario [])
  = (Ret ConflictingOptions, mkWorld fs_scenario [],
     [EvPrint "Error: Cannot use --replace-original with --output-folder"]).
Proof.
  apply (C3_conflicting_options_abort exec_missing "prog" "root"
           ["--output-folder"; "out"; "--replace-original"] "out").
  - reflexivity.
  - discriminate.
Defined.

(** ** Single calls *)

Lemma timeout_is_subprocess_error :
  forall e, is_TimeoutExpired e || is_SubprocessError e = is_SubprocessError e.
Proof.
  intros [c m]. destruct c; reflexivity.
Qed.

Lemma timeout_is_exception :
  forall e, is_TimeoutExpired e = true -> is_Exception e = true.
Proof.
  intros [c m]. unfold is_TimeoutExpired, is_Exception.
  destruct c; simpl; intro H; (reflexivity || discriminate H).
Qed.

(** What [is_already_h264_mp4] does, by the outcome of the probe. *)
Lemma is_already_h264_mp4_spec :
  forall (exec : exec_t) (p : path) (w : world),
    is_already_h264_mp4 exec p w =
    if negb (PyStr.lower (pathlib.suffix p) =? ".mp4") then (Ret false, w, [])
    else
      let '(o, f') := exec (ffprobe_cmd p) 10%Z (w_fs w) in
      let w' := mkWorld f' (w_stdin w) in
      let tr := [EvRun (ffprobe_cmd p) 10 o] in
      match o with
      | Completed _ out _ => (Ret (PyStr.lower (PyStr.strip out) =? "h264"), w', tr)
      | ProcRaise e =>
          if is_SubprocessError e then (Ret false, w', tr) else (Raise e, w', tr)
      end.
Proof.
  intros exec p w. unfold is_already_h264_mp4.
  destruct (negb (PyStr.lower (pathlib.suffix p) =? ".mp4")); [reflexivity|].
  unfold try_except, bind, subprocess_run, ret.
  destruct (exec (ffprobe_cmd p) 10%Z (w_fs w)) as [[rc out err|e] f'].
  - reflexivity.
  - cbn [select_handler]. rewrite timeout_is_subprocess_error.
    destruct (is_SubprocessError e); reflexivity.
Qed.

(** What [transcode_video] does, by the outcome of the encoder. *)
Lemma transcode_video_spec :
  forall (exec : exec_t) (inp out : path) (w : world),
    transcode_video exec inp out w =
    let cmd := ffmpeg_cmd inp out in
    let '(o, f') := exec cmd 3600%Z (w_fs w) in
    let w' := mkWorld f' (w_stdin w) in
    let started :=
      [EvPrint ("Transcoding: " ++ pathlib.name inp);
       EvPrint ("Command: " ++ PyStr.join " " cmd);
       EvRun cmd 3600 o] in
    match o with
    | Completed rc _ err =>
        if (rc =? 0)%Z then
          (Ret true, w',
           started ++ [EvPrint ("✓ Successfully transcoded: " ++ pathlib.str out)])%list
        else
          (Ret false, w',
           started ++ [EvPrint ("✗ Error transcoding " ++ pathlib.name inp ++ ":");
                       EvPrint err])%list
    | ProcRaise e =>
        if is_TimeoutExpired e then
          (Ret false, w',
           started ++ [EvPrint ("✗ Timeout transcoding " ++ pathlib.name inp)])%list
        else if is_Exception e then
          (Ret false, w',
           started ++ [EvPrint ("✗ Exception transcoding " ++ pathlib.name inp
                                ++ ": " ++ exn_msg e)])%list
        else (Raise e, w', started)
    end.
Proof.
  intros exec inp out w. unfold transcode_video.
  unfold try_except, bind, subprocess_run, ret, print.
  destruct (exec (ffmpeg_cmd inp out) 3600%Z (w_fs w)) as [[rc so se|e] f'].
  - cbn [returncode stderr]. destruct (rc =? 0)%Z; reflexivity.
  - cbn [select_handler].
    destruct (is_TimeoutExpired e); [reflexivity|].
    destruct (is_Exception e); reflexivity.
Qed.

(** No file with the suffix [.mp4], in any casing, is a video file. *)
Lemma mp4_is_not_a_video_file :
  forall p, PyStr.lower (pathlib.suffix p) = ".mp4" -> is_video_file p = false.
Proof.
  intros p H. unfold is_video_file. rewrite H. reflexivity.
Qed.

Lemma video_file_is_not_probed :
  forall (exec : exec_t) (p : path) (w : world),
    is_video_file p = true ->
    is_already_h264_mp4 exec p w = (Ret false, w, []).
Proof.
  intros exec p w H. unfold is_already_h264_mp4.
  destruct (PyStr.lower (pathlib.suffix p) =? ".mp4") eqn:E.
  - apply String.eqb_eq in E. rewrite (mp4_is_not_a_video_file p E) in H. discriminate.
  - reflexivity.
Qed.

(** The scan is a filter: it keeps the regular files with a listed
    extension, never runs the probe and never prints a skip line. *)
Lemma scan_videos_filter :
  forall (exec : exec_t) (entries acc : list path) (w : world),
    scan_videos exec entries acc w
    = (Ret (acc ++ filter (fun p => fs_is_file p (w_fs w) && is_video_file p) entries)%list,
       w, []).
Proof.
  intros exec entries. induction entries as [|p rest IH]; intros acc w.
  - cbn. now rewrite app_nil_r.
  - cbn [scan_videos filter]. unfold bind at 1. unfold Path_is_file at 1.
    destruct (fs_is_file p (w_fs w) && is_video_file p) eqn:E.
    + apply andb_true_iff in E as [_ Hv].
      unfold bind at 1. rewrite (video_file_is_not_probed exec p w Hv).
      cbn [negb]. rewrite IH. cbn. now rewrite <- app_assoc.
    + rewrite IH. reflexivity.
Qed.

(** C1: the scan of the scenario folder ([a.avi], [b.mp4] already H.264,
    [c.txt]) does yield the candidate [a.avi], but [b.mp4] is not counted as
    skipped: the scan emits no skip line and never probes it; and an [.mp4]
    whose codec is HEVC is not a candidate either. *)
Theorem C1_scan_ignores_mp4 :
  scan_videos (exec_codec "h264") (fs_rglob ["root"] fs_scenario) []
    (mkWorld fs_scenario [])
  = (Ret [["root"; "a.avi"]], mkWorld fs_scenario [], [])
  /\ is_video_file ["root"; "b.mp4"] = false
  /\ scan_videos (exec_codec "hevc") (fs_rglob ["root"] fs_hevc) []
       (mkWorld fs_hevc [])
     = (Ret [], mkWorld fs_hevc [], [])
  /\ fst (fst (main (exec_codec "hevc") ["prog"; "root"] (mkWorld fs_hevc [])))
     = Ret (Ran NothingToTranscode).
Proof.
  repeat split; vm_compute; reflexivity.
Qed.

(** C2: two probe failures are not turned into [False].  With the probe
    tool missing, [subprocess.run] raises [FileNotFoundError], which is not
    a [SubprocessError], and the call raises; with a non-zero exit code the
    captured output alone decides, and the call may return [True]. *)
Theorem C2_probe_failures_not_all_false :
  fst (fst (is_already_h264_mp4 exec_missing ["root"; "b.mp4"] (mkWorld fs_scenario [])))
  = Raise (mkExn FileNotFoundError "No such file or directory")
  /\ fst (fst (is_already_h264_mp4 exec_probe_exit1 ["root"; "b.mp4"]
                 (mkWorld fs_scenario [])))
     = Ret true.
Proof.
  split; vm_compute; reflexivity.
Qed.

(** ** Helpers on traces *)

Lemma filter_none :
  forall (f : event -> bool) (l : list event),
    Forall (fun e => f e = false) l -> filter f l = [].
Proof.
  intros f l H. induction H as [|e l He _ IH]; [reflexivity|].
  cbn. now rewrite He.
Qed.

(** [Path.unlink] raises nothing but [OSError]s. *)
Lemma fs_unlink_raises_exception :
  forall p f e, fs_unlink p f = Raise e -> is_Exception e = true.
Proof.
  intros p f e. unfold fs_unlink.
  destruct (fs_kind p f) as [[|]|]; intro H; inversion H; reflexivity.
Qed.

(** What [remove_original] does: it never raises. *)
Lemma remove_original_spec :
  forall (replace_original : bool) (inp out : path) (w : world),
    remove_original replace_original inp out w =
    if replace_original && negb (path_eqb inp out) then
      match fs_unlink inp (w_fs w) with
      | Ret f' =>
          (Ret tt, mkWorld f' (w_stdin w),
           [EvUnlink inp None; EvPrint ("Removed original: " ++ pathlib.name inp)])
      | Raise e =>
          (Ret tt, w,
           [EvUnlink inp (Some e);
            EvPrint ("Warning: Could not remove original file: " ++ exn_msg e)])
      end
    else (Ret tt, w, []).
Proof.
  intros ro inp out w. unfold remove_original.
  destruct (ro && negb (path_eqb inp out)); [|reflexivity].
  unfold try_except, bind, Path_unlink, on_fs, print.
  destruct (fs_unlink inp (w_fs w)) as [f'|e] eqn:E; [reflexivity|].
  cbn [select_handler]. rewrite (fs_unlink_raises_exception _ _ _ E). reflexivity.
Qed.

(** [determine_output_path] with a separate output folder. *)
Lemma determine_output_path_folder :
  forall folder out replace_original inp w,
    PyStr.truthy out = true ->
    determine_output_path folder (Some out) replace_original inp w =
    let output_dir := pathlib.Path out in
    let made e := EvMkdir output_dir true true e in
    match fs_mkdir true true output_dir (w_fs w) with
    | Raise e => (Raise e, w, [made (Some e)])
    | Ret f1 =>
        let w1 := mkWorld f1 (w_stdin w) in
        match pathlib.relative_to inp folder with
        | Raise e => (Raise e, w1, [made None])
        | Ret rel_path =>
            match pathlib.with_suffix rel_path ".mp4" with
            | Raise e => (Raise e, w1, [made None])
            | Ret rel_mp4 =>
                let output_path := pathlib.truediv output_dir rel_mp4 in
                let made' e := EvMkdir (pathlib.parent output_path) true true e in
                match fs_mkdir true true (pathlib.parent output_path) f1 with
                | Raise e => (Raise e, w1, [made None; made' (Some e)])
                | Ret f2 =>
                    (Ret output_path, mkWorld f2 (w_stdin w), [made None; made' None])
                end
            end
        end
    end.
Proof.
  intros folder out ro inp w Hout.
  unfold determine_output_path. rewrite Hout.
  unfold bind, Path_mkdir, on_fs, lift, ret.
  destruct (fs_mkdir true true (pathlib.Path out) (w_fs w)) as [f1|e]; [|reflexivity].
  destruct (pathlib.relative_to inp folder) as [rel|e]; [|reflexivity].
  destruct (pathlib.with_suffix rel ".mp4") as [rel_mp4|e]; [|reflexivity].
  cbn [w_fs w_stdin].
  destruct (fs_mkdir true true
              (pathlib.parent (pathlib.truediv (pathlib.Path out) rel_mp4)) f1);
    reflexivity.
Qed.

(** [determine_output_path] without an output folder touches nothing. *)
Lemma determine_output_path_sibling :
  forall folder output_folder replace_original inp w,
    truthy_opt output_folder = false ->
    determine_output_path folder output_folder replace_original inp w =
    ((if replace_original then pathlib.with_suffix inp ".mp4"
      else pathlib.with_name inp (pathlib.stem inp ++ "_h264.mp4")), w, []).
Proof.
  intros folder o ro inp w H. unfold determine_output_path, lift.
  destruct o as [out|]; [cbn in H; rewrite H|]; destruct ro; reflexivity.
Qed.

Lemma determine_output_path_events :
  forall folder output_folder replace_original inp w,
    Forall (fun e => is_mkdir e = true)
      (snd (determine_output_path folder output_folder replace_original inp w)).
Proof.
  intros folder o ro inp w.
  destruct (truthy_opt o) eqn:Ho.
  - destruct o as [out|]; [|discriminate]. cbn in Ho.
    rewrite (determine_output_path_folder _ _ _ _ _ Ho). cbv zeta.
    destruct (fs_mkdir true true (pathlib.Path out) (w_fs w)) as [f1|e];
      [|repeat constructor].
    destruct (pathlib.relative_to inp folder) as [rel|e]; [|repeat constructor].
    destruct (pathlib.with_suffix rel ".mp4") as [rel_mp4|e]; [|repeat constructor].
    destruct (fs_mkdir true true
                (pathlib.parent (pathlib.truediv (pathlib.Path out) rel_mp4)) f1);
      repeat constructor.
  - rewrite (determine_output_path_sibling _ _ _ _ _ Ho). constructor.
Qed.

(** One turn of the loop of [transcode_all]. *)
Lemma transcode_all_cons :
  forall (exec : exec_t) folder output_folder replace_original total i v rest c w,
    transcode_all exec folder output_folder replace_original total i (v :: rest) c w =
    let banner :=
      EvPrint (nl ++ "[" ++ PyStr.of_nat i ++ "/" ++ PyStr.of_nat total ++ "]") in
    match determine_output_path folder output_folder replace_original v w with
    | (Raise e, w1, t1) => (Raise e, w1, banner :: t1)
    | (Ret out, w1, t1) =>
        match transcode_video exec v out w1 with
        | (Raise e, w2, t2) => (Raise e, w2, banner :: t1 ++ t2)%list
        | (Ret false, w2, t2) =>
            let '(r, w4, t4) :=
              transcode_all exec folder output_folder replace_original total (S i)
                rest c w2 in
            (r, w4, banner :: t1 ++ t2 ++ t4)%list
        | (Ret true, w2, t2) =>
            match remove_original replace_original v out w2 with
            | (Raise e, w3, t3) => (Raise e, w3, banner :: t1 ++ t2 ++ t3)%list
            | (Ret _, w3, t3) =>
                let '(r, w4, t4) :=
                  transcode_all exec folder output_folder replace_original total (S i)
                    rest (c + 1) w3 in
                (r, w4, banner :: t1 ++ t2 ++ t3 ++ t4)%list
            end
        end
    end.
Proof.
  intros. cbn [transcode_all]. unfold bind, print.
  destruct (determine_output_path folder output_folder replace_original v w)
    as [[[out|e] w1] t1]; [|reflexivity].
  destruct (transcode_video exec v out w1) as [[[[|]|e] w2] t2]; [| |reflexivity].
  - destruct (remove_original replace_original v out w2) as [[[[]|e] w3] t3];
      [|reflexivity].
    destruct (transcode_all exec folder output_folder replace_original total (S i)
                rest (c + 1) w3) as [[r w4] t4].
    reflexivity.
  - destruct (transcode_all exec folder output_folder replace_original total (S i)
                rest c w2) as [[r w4] t4].
    reflexivity.
Qed.

(** The process runs of one call of [transcode_video]: exactly one, the
    encoder; the call returns whether it exited with code 0. *)
Lemma transcode_video_runs :
  forall (exec : exec_t) (v out : path) (w : world),
    let o := fst (exec (ffmpeg_cmd v out) 3600%Z (w_fs w)) in
    let run := EvRun (ffmpeg_cmd v out) 3600 o in
    let '(r, _, tr) := transcode_video exec v out w in
    filter is_run tr = [run]
    /\ filter is_encoder_run tr = [run]
    /\ filter is_encoder_success tr = (if exit_zero o then [run] else [])
    /\ filter is_encoder_failure tr = (if exit_zero o then [] else [run])
    /\ match r with
       | Ret b => b = exit_zero o
       | Raise _ => exit_zero o = false
       end.
Proof.
  intros exec v out w. rewrite transcode_video_spec. cbv zeta.
  destruct (exec (ffmpeg_cmd v out) 3600%Z (w_fs w)) as [[rc so se|e] f'];
    cbn [fst].
  - unfold is_encoder_failure.
    destruct (rc =? 0)%Z eqn:E; cbn; rewrite ?E; cbn; repeat split; reflexivity.
  - unfold is_encoder_failure.
    destruct (is_TimeoutExpired e); [|destruct (is_Exception e)];
      cbn; repeat split; reflexivity.
Qed.

Lemma remove_original_quiet :
  forall ro v out w,
    fst (fst (remove_original ro v out w)) = Ret tt
    /\ Forall (fun e => is_run e = false) (snd (remove_original ro v out w)).
Proof.
  intros ro v out w. rewrite remove_original_spec.
  destruct (ro && negb (path_eqb v out)); [|split; [reflexivity|constructor]].
  destruct (fs_unlink v (w_fs w)); split; try reflexivity; repeat constructor.
Qed.

Lemma mkdirs_are_not_runs :
  forall l, Forall (fun e => is_mkdir e = true) l -> Forall (fun e => is_run e = false) l.
Proof.
  intros l H. eapply Forall_impl; [|exact H].
  intros [] He; cbn in *; congruence.
Qed.

Lemma not_run_not_encoder :
  forall l, Forall (fun e => is_run e = false) l ->
            filter is_encoder_run l = []
            /\ filter is_encoder_success l = []
            /\ filter is_encoder_failure l = [].
Proof.
  intros l H. repeat split; apply filter_none; (eapply Forall_impl; [|exact H]);
    intros [] He; cbn in *; try reflexivity; discriminate.
Qed.

(** The accounting of the loop: the encoder runs are those of the
    candidates, in order and one each; when the loop ends normally the
    counter has grown by the number of runs that exited with code 0. *)
Lemma transcode_all_accounting :
  forall (exec : exec_t) folder output_folder replace_original total vs i c w,
    let '(r, _, tr) :=
      transcode_all exec folder output_folder replace_original total i vs c w in
    let runs := filter is_encoder_run tr in
    filter is_run tr = runs
    /\ map encoder_input runs = map pathlib.str (firstn (List.length runs) vs)
    /\ match r with
       | Ret s =>
           List.length runs = List.length vs
           /\ s = c + List.length (filter is_encoder_success tr)
           /\ List.length vs
              = List.length (filter is_encoder_success tr)
                + List.length (filter is_encoder_failure tr)
       | Raise _ => List.length runs <= List.length vs
       end.
Proof.
  intros exec folder o ro total vs.
  induction vs as [|v rest IH]; intros i c w.
  - cbn. repeat split; lia.
  - rewrite transcode_all_cons. cbv zeta.
    pose proof (determine_output_path_events folder o ro v w) as Hd.
    destruct (determine_output_path folder o ro v w) as [[[out|e] w1] t1];
      cbn [snd] in Hd;
      pose proof (mkdirs_are_not_runs _ Hd) as Hn;
      pose proof (filter_none is_run _ Hn) as Hr;
      destruct (not_run_not_encoder _ Hn) as (H1 & H1s & H1f).
    2:{ cbn [filter is_run is_encoder_run]. rewrite Hr, H1. cbn.
        repeat split; lia. }
    pose proof (transcode_video_runs exec v out w1) as Hv. cbv zeta in Hv.
    destruct (transcode_video exec v out w1) as [[[b|e] w2] t2].
    2:{ destruct Hv as (Hv0 & Hv1 & _).
        cbn [filter is_run is_encoder_run]. rewrite !filter_app, Hr, H1, Hv0, Hv1.
        cbn. repeat split; lia. }
    destruct Hv as (Hv0 & Hv1 & Hv2 & Hv3 & Hb).
    destruct b.
    + destruct (remove_original_quiet ro v out w2) as [Hrr Hrq].
      destruct (remove_original ro v out w2) as [[[[]|e] w3] t3];
        cbn [fst snd] in Hrr, Hrq; [|discriminate].
      pose proof (filter_none is_run _ Hrq) as Hr3.
      destruct (not_run_not_encoder _ Hrq) as (H3 & H3s & H3f).
      specialize (IH (S i) (c + 1) w3).
      destruct (transcode_all exec folder o ro total (S i) rest (c + 1) w3)
        as [[r w4] t4].
      cbv zeta in IH. destruct IH as (IH0 & IH1 & IH2).
      cbn [filter is_run is_encoder_run is_encoder_success is_encoder_failure andb].
      rewrite !filter_app, Hr, Hr3, H1, H1s, H1f, H3, H3s, H3f, Hv0, Hv1, Hv2, Hv3.
      rewrite <- Hb. cbn [app List.length firstn map].
      split; [now rewrite IH0|].
      split; [now rewrite IH1|].
      destruct r; [|lia]. lia.
    + specialize (IH (S i) c w2).
      destruct (transcode_all exec folder o ro total (S i) rest c w2)
        as [[r w4] t4].
      cbv zeta in IH. destruct IH as (IH0 & IH1 & IH2).
      cbn [filter is_run is_encoder_run is_encoder_success is_encoder_failure andb].
      rewrite !filter_app, Hr, H1, H1s, H1f, Hv0, Hv1, Hv2, Hv3.
      rewrite <- Hb. cbn [app List.length firstn map].
      split; [now rewrite IH0|].
      split; [now rewrite IH1|].
      destruct r; [|lia]. lia.
Qed.

(** [transcode_video] lets an exception through only when the encoder
    invocation raised it and it is no [Exception]. *)
Lemma transcode_video_raise_inv :
  forall (exec : exec_t) v out w e w' tr,
    transcode_video exec v out w = (Raise e, w', tr) ->
    fst (exec (ffmpeg_cmd v out) 3600%Z (w_fs w)) = ProcRaise e
    /\ is_Exception e = false.
Proof.
  intros exec v out w e w' tr. rewrite transcode_video_spec. cbv zeta.
  destruct (exec (ffmpeg_cmd v out) 3600%Z (w_fs w)) as [[rc so se|e0] f'];
    cbn [fst].
  - destruct (rc =? 0)%Z; intro H; discriminate H.
  - destruct (is_TimeoutExpired e0); [intro H; discriminate H|].
    destruct (is_Exception e0) eqn:E; intro H; [discriminate H|].
    inversion H; subst. split; [reflexivity|exact E].
Qed.

(** A failed encoder run makes [transcode_video] return [False]: the world
    is the one the encoder left. *)
Lemma transcode_video_failed :
  forall (exec : exec_t) v out w o f',
    exec (ffmpeg_cmd v out) 3600%Z (w_fs w) = (o, f') ->
    encoder_failed o = true ->
    fst (transcode_video exec v out w) = (Ret false, mkWorld f' (w_stdin w)).
Proof.
  intros exec v out w o f' He Hf. rewrite transcode_video_spec. cbv zeta.
  rewrite He. destruct o as [rc so se|e]; cbn [encoder_failed] in Hf.
  - apply negb_true_iff in Hf. rewrite Hf. reflexivity.
  - destruct (is_TimeoutExpired e); [reflexivity|]. rewrite Hf. reflexivity.
Qed.

(** The loop stops early only at a candidate whose output path cannot be
    computed or whose encoder invocation raised something that is no
    [Exception]; the candidates before it were all gone through. *)
Lemma transcode_all_raise_cause :
  forall (exec : exec_t) folder o ro total vs i c w e w' tr,
    transcode_all exec folder o ro total i vs c w = (Raise e, w', tr) ->
    exists vs1 v vs2 c1 w1 t1,
      vs = (vs1 ++ v :: vs2)%list
      /\ transcode_all exec folder o ro total i vs1 c w = (Ret c1, w1, t1)
      /\ loop_stopped_by exec folder o ro v w1 e.
Proof.
  intros exec folder o ro total vs.
  induction vs as [|v rest IH]; intros i c w e w' tr H; [discriminate H|].
  pose proof (transcode_all_cons exec folder o ro total i v rest c w) as Hc.
  cbv zeta in Hc.
  assert (Hnil : transcode_all exec folder o ro total i [] c w = (Ret c, w, []))
    by reflexivity.
  destruct (determine_output_path folder o ro v w) as [[[out|e1] w1] t1] eqn:Ed.
  2:{ rewrite Hc in H. inversion H; subst.
      exists [], v, rest, c, w, []. split; [reflexivity|]. split; [exact Hnil|].
      unfold loop_stopped_by. now rewrite Ed. }
  destruct (transcode_video exec v out w1) as [[[b|e2] w2] t2] eqn:Ev.
  2:{ rewrite Hc in H. inversion H; subst.
      exists [], v, rest, c, w, []. split; [reflexivity|]. split; [exact Hnil|].
      unfold loop_stopped_by. rewrite Ed.
      exact (transcode_video_raise_inv _ _ _ _ _ _ _ Ev). }
  destruct b.
  - destruct (remove_original_quiet ro v out w2) as [Hr _].
    destruct (remove_original ro v out w2) as [[[[]|e3] w3] t3] eqn:Em;
      cbn [fst] in Hr; [|discriminate Hr].
    destruct (transcode_all exec folder o ro total (S i) rest (c + 1) w3)
      as [[r w4] t4] eqn:El.
    rewrite Hc in H. inversion H; subst.
    destruct (IH _ _ _ _ _ _ El) as (vs1 & v' & vs2 & c1 & w1' & t1' & E & E1 & Hs).
    exists (v :: vs1), v', vs2, c1, w1'. eexists.
    split; [now rewrite E|]. split; [|exact Hs].
    rewrite transcode_all_cons. cbv zeta. rewrite Ed, Ev, Em, E1. reflexivity.
  - destruct (transcode_all exec folder o ro total (S i) rest c w2)
      as [[r w4] t4] eqn:El.
    rewrite Hc in H. inversion H; subst.
    destruct (IH _ _ _ _ _ _ El) as (vs1 & v' & vs2 & c1 & w1' & t1' & E & E1 & Hs).
    exists (v :: vs1), v', vs2, c1, w1'. eexists.
    split; [now rewrite E|]. split; [|exact Hs].
    rewrite transcode_all_cons. cbv zeta. rewrite Ed, Ev, E1. reflexivity.
Qed.

(** C5: [transcode_video] runs the encoder exactly once and returns [True]
    exactly when it exited with code 0; a non-zero exit prints the tool's
    diagnostic output, a timeout or any other [Exception] prints its message,
    and all of them return [False].  In the loop, a candidate whose encoder
    run failed in one of these ways leaves the counter as it was and the
    loop goes on with the next candidate, from the world the encoder left.
    The encoder runs of the loop are those of the candidates, one each and
    in order; when the loop ends the counter has grown by the number of runs
    that exited with 0, every other candidate being a failure.  The loop
    ends early only at a candidate whose output path could not be computed,
    or whose encoder invocation raised something that is no [Exception] --
    never because an encoder run failed -- and every candidate before that
    one was gone through. *)
Theorem C5_encoder_outcome_and_failure_accounting :
  forall (exec : exec_t) folder output_folder replace_original total vs i c w
         (inp out : path) (w0 : world) (v : path) (rest : list path),
    (let o := fst (exec (ffmpeg_cmd inp out) 3600%Z (w_fs w0)) in
     let '(r, _, tr) := transcode_video exec inp out w0 in
     filter is_run tr = [EvRun (ffmpeg_cmd inp out) 3600 o]
     /\ match o with
        | Completed rc _ err =>
            r = Ret (rc =? 0)%Z
            /\ (if (rc =? 0)%Z then True else last tr (EvPrint "") = EvPrint err)
        | ProcRaise e =>
            if is_Exception e then
              r = Ret false
              /\ last tr (EvPrint "")
                 = EvPrint (if is_TimeoutExpired e
                            then "✗ Timeout transcoding " ++ pathlib.name inp
                            else "✗ Exception transcoding " ++ pathlib.name inp
                                 ++ ": " ++ exn_msg e)
            else r = Raise e
        end)
    /\
    (match determine_output_path folder output_folder replace_original v w with
     | (Ret o_path, w1, t1) =>
         let '(res, f') := exec (ffmpeg_cmd v o_path) 3600%Z (w_fs w1) in
         if encoder_failed res then
           transcode_all exec folder output_folder replace_original total i
             (v :: rest) c w
           = (let '(r, w4, t4) :=
                transcode_all exec folder output_folder replace_original total (S i)
                  rest c (mkWorld f' (w_stdin w1)) in
              (r, w4,
               EvPrint (nl ++ "[" ++ PyStr.of_nat i ++ "/" ++ PyStr.of_nat total ++ "]")
                 :: t1 ++ snd (transcode_video exec v o_path w1) ++ t4)%list)
         else True
     | (Raise _, _, _) => True
     end)
    /\
    (let '(r, _, tr) :=
       transcode_all exec folder output_folder replace_original total i vs c w in
     let runs := filter is_encoder_run tr in
     filter is_run tr = runs
     /\ map encoder_input runs = map pathlib.str (firstn (List.length runs) vs)
     /\ match r with
        | Ret s =>
            List.length runs = List.length vs
            /\ s = c + List.length (filter is_encoder_success tr)
            /\ List.length vs
               = List.length (filter is_encoder_success tr)
                 + List.length (filter is_encoder_failure tr)
        | Raise e =>
            List.length runs <= List.length vs
            /\ exists vs1 v' vs2 c1 w1 t1,
                 vs = (vs1 ++ v' :: vs2)%list
                 /\ transcode_all exec folder output_folder replace_original total
                      i vs1 c w = (Ret c1, w1, t1)
                 /\ loop_stopped_by exec folder output_folder replace_original
                      v' w1 e
        end).
Proof.
  intros exec folder o ro total vs i c w inp out w0 v rest. split; [|split].
  - cbv zeta. rewrite transcode_video_spec. cbv zeta.
    destruct (exec (ffmpeg_cmd inp out) 3600%Z (w_fs w0)) as [[rc so se|e] f'];
      cbn [fst].
    + destruct (rc =? 0)%Z; cbn; repeat split; reflexivity.
    + destruct (is_TimeoutExpired e) eqn:Et.
      * rewrite (timeout_is_exception e Et). cbn. repeat split; reflexivity.
      * destruct (is_Exception e); cbn; repeat split; reflexivity.
  - pose proof (transcode_all_cons exec folder o ro total i v rest c w) as Hc.
    cbv zeta in Hc.
    destruct (determine_output_path folder o ro v w) as [[[o_path|e] w1] t1];
      [|exact I].
    destruct (exec (ffmpeg_cmd v o_path) 3600%Z (w_fs w1)) as [res f'] eqn:Ex.
    destruct (encoder_failed res) eqn:Ef; [|exact I].
    pose proof (transcode_video_failed exec v o_path w1 res f' Ex Ef) as Hv.
    destruct (transcode_video exec v o_path w1) as [[rv wv] tv].
    cbn [fst snd] in Hv |- *. inversion Hv; subst. exact Hc.
  - pose proof (transcode_all_accounting exec folder o ro total vs i c w) as Ha.
    destruct (transcode_all exec folder o ro total i vs c w) as [[[s|e] w'] tr] eqn:El;
      cbv zeta in Ha |- *.
    + exact Ha.
    + destruct Ha as (H1 & H2 & H3).
      split; [exact H1|]. split; [exact H2|]. split; [exact H3|].
      exact (transcode_all_raise_cause _ _ _ _ _ _ _ _ _ _ _ _ El).
Qed.

Lemma ffmpeg_cmd_is_template :
  forall inp out,
    ffmpeg_cmd inp out = encoder_template (pathlib.str inp) (pathlib.str out).
Proof. reflexivity. Qed.

Lemma quiet_follows_template :
  forall vs l, Forall (fun e => is_run e = false) l -> Forall (run_follows_template vs) l.
Proof.
  intros vs l H. eapply Forall_impl; [|exact H].
  intros [] He; cbn in *; try exact I; discriminate.
Qed.

Lemma run_follows_template_weaken :
  forall v vs l,
    Forall (run_follows_template vs) l -> Forall (run_follows_template (v :: vs)) l.
Proof.
  intros v vs l H. eapply Forall_impl; [|exact H].
  intros [] He; cbn in *; try exact I.
  destruct He as (Ht & inp & out & Hin & Ha).
  split; [exact Ht|]. exists inp, out. auto.
Qed.

Lemma transcode_video_follows_template :
  forall (exec : exec_t) v out w rest,
    Forall (run_follows_template (v :: rest)) (snd (transcode_video exec v out w)).
Proof.
  intros exec v out w rest. rewrite transcode_video_spec. cbv zeta.
  assert (Hrun : forall o, run_follows_template (v :: rest)
                             (EvRun (ffmpeg_cmd v out) 3600 o)).
  { intro o. split; [reflexivity|]. exists v, out. split; [now left|reflexivity]. }
  destruct (exec (ffmpeg_cmd v out) 3600%Z (w_fs w)) as [[rc so se|e] f'].
  - destruct (rc =? 0)%Z; cbn [snd app];
      repeat apply Forall_cons; try apply Forall_nil; try exact I; apply Hrun.
  - destruct (is_TimeoutExpired e); [|destruct (is_Exception e)]; cbn [snd app];
      repeat apply Forall_cons; try apply Forall_nil; try exact I; apply Hrun.
Qed.

(** C8: a call of [transcode_video] starts one process, the encoder with
    the fixed arguments -- libx264 at CRF 23 and preset medium, AAC at 128k,
    faststart, overwrite -- and a wait of 3600 seconds; and every process
    that the loop over the candidates starts is that invocation, on one of
    the candidates. *)
Theorem C8_encoder_invoked_with_fixed_template :
  forall (exec : exec_t) folder output_folder replace_original total vs i c w
         (inp out : path) (w0 : world),
    (let argv := encoder_template (pathlib.str inp) (pathlib.str out) in
     filter is_run (snd (transcode_video exec inp out w0))
     = [EvRun argv 3600 (fst (exec argv 3600%Z (w_fs w0)))])
    /\ Forall (run_follows_template vs)
         (snd (transcode_all exec folder output_folder replace_original total i vs c w)).
Proof.
  intros exec folder o ro total vs i c w inp out w0. split.
  { cbv zeta. rewrite <- ffmpeg_cmd_is_template.
    pose proof (transcode_video_runs exec inp out w0) as H. cbv zeta in H.
    destruct (transcode_video exec inp out w0) as [[r w'] tr]. apply H. }
  clear inp out w0. revert i c w.
  induction vs as [|v rest IH]; intros i c w.
  - cbn. constructor.
  - rewrite transcode_all_cons. cbv zeta.
    pose proof (determine_output_path_events folder o ro v w) as Hd.
    destruct (determine_output_path folder o ro v w) as [[[out|e] w1] t1];
      cbn [snd] in Hd;
      pose proof (quiet_follows_template (v :: rest) _ (mkdirs_are_not_runs _ Hd)) as H1.
    2:{ cbn [snd]. constructor; [exact I|exact H1]. }
    pose proof (transcode_video_follows_template exec v out w1 rest) as H2.
    destruct (transcode_video exec v out w1) as [[[[|]|e] w2] t2]; cbn [snd] in H2.
    + destruct (remove_original_quiet ro v out w2) as [Hrr Hrq].
      apply (quiet_follows_template (v :: rest)) in Hrq.
      destruct (remove_original ro v out w2) as [[[[]|e] w3] t3];
        cbn [fst snd] in Hrr, Hrq; [|discriminate].
      specialize (IH (S i) (c + 1) w3).
      destruct (transcode_all exec folder o ro total (S i) rest (c + 1) w3)
        as [[r w4] t4].
      cbn [snd] in *. constructor; [exact I|].
      repeat (apply Forall_app; split); auto using run_follows_template_weaken.
    + specialize (IH (S i) c w2).
      destruct (transcode_all exec folder o ro total (S i) rest c w2)
        as [[r w4] t4].
      cbn [snd] in *. constructor; [exact I|].
      repeat (apply Forall_app; split); auto using run_follows_template_weaken.
    + cbn [snd]. constructor; [exact I|].
      apply Forall_app; split; assumption.
Qed.

(** ** The counter of the loop *)

(** The loop over [vs1 ++ vs2] is the loop over [vs1] followed by the loop
    over [vs2], which starts from the counter the first one reached. *)
Lemma transcode_all_app :
  forall (exec : exec_t) folder output_folder replace_original total vs1 vs2 i c w,
    transcode_all exec folder output_folder replace_original total i (vs1 ++ vs2)%list c w =
    match transcode_all exec folder output_folder replace_original total i vs1 c w with
    | (Ret c1, w1, t1) =>
        let '(r, w2, t2) :=
          transcode_all exec folder output_folder replace_original total
            (i + List.length vs1) vs2 c1 w1 in
        (r, w2, (t1 ++ t2)%list)
    | (Raise e, w1, t1) => (Raise e, w1, t1)
    end.
Proof.
  intros exec folder o ro total vs1 vs2.
  induction vs1 as [|v rest IH]; intros i c w.
  - cbn [app List.length transcode_all]. unfold ret. rewrite Nat.add_0_r.
    destruct (transcode_all exec folder o ro total i vs2 c w) as [[r w2] t2].
    reflexivity.
  - rewrite <- app_comm_cons. rewrite !transcode_all_cons. cbv zeta.
    cbn [List.length].
    replace (i + S (List.length rest)) with (S i + List.length rest) by lia.
    destruct (determine_output_path folder o ro v w) as [[[out|e] w1] t1];
      [|reflexivity].
    destruct (transcode_video exec v out w1) as [[[[|]|e] w2] t2]; [| |reflexivity].
    + destruct (remove_original ro v out w2) as [[[[]|e] w3] t3]; [|reflexivity].
      rewrite IH.
      destruct (transcode_all exec folder o ro total (S i) rest (c + 1) w3)
        as [[[c1|e] w4] t4]; [|reflexivity].
      destruct (transcode_all exec folder o ro total (S i + List.length rest) vs2 c1 w4)
        as [[r w5] t5].
      cbn [app]. now rewrite <- !app_assoc.
    + rewrite IH.
      destruct (transcode_all exec folder o ro total (S i) rest c w2)
        as [[[c1|e] w4] t4]; [|reflexivity].
      destruct (transcode_all exec folder o ro total (S i + List.length rest) vs2 c1 w4)
        as [[r w5] t5].
      cbn [app]. now rewrite <- !app_assoc.
Qed.

Lemma transcode_all_bounds :
  forall (exec : exec_t) folder output_folder replace_original total vs i c w,
    match fst (fst (transcode_all exec folder output_folder replace_original total
                      i vs c w)) with
    | Ret s => c <= s <= c + List.length vs
    | Raise _ => True
    end.
Proof.
  intros exec folder o ro total vs i c w.
  pose proof (transcode_all_accounting exec folder o ro total vs i c w) as H.
  destruct (transcode_all exec folder o ro total i vs c w) as [[[s|e] w'] tr];
    cbn [fst]; [|exact I].
  cbv zeta in H. destruct H as (_ & _ & _ & Hs & Hl). lia.
Qed.

Lemma bind_pure :
  forall {A B} (m : M A) (k : A -> M B) (w : world) (a : A),
    m w = (Ret a, w, []) -> bind m k w = k a w.
Proof.
  intros A B m k w a H. unfold bind. rewrite H.
  destruct (k a w) as [[r w2] t2]. reflexivity.
Qed.

Lemma bind_print :
  forall {B} (line : string) (k : unit -> M B) (w : world),
    bind (print line) k w = let '(r, w', t) := k tt w in (r, w', EvPrint line :: t).
Proof. reflexivity. Qed.

Lemma print_found_spec :
  forall (vs : list path) (i : nat) (w : world),
    print_found i vs w = (Ret tt, w, found_lines i vs).
Proof.
  induction vs as [|v rest IH]; intros i w; [reflexivity|].
  cbn [print_found found_lines]. rewrite bind_print, IH. reflexivity.
Qed.

(** What the version probe of [find_and_transcode_videos] does. *)
Lemma check_ffmpeg_spec :
  forall (exec : exec_t) (w : world),
    check_ffmpeg exec w =
    let '(o, f') := exec ["ffmpeg"; "-version"] 5%Z (w_fs w) in
    let w' := mkWorld f' (w_stdin w) in
    let run := EvRun ["ffmpeg"; "-version"] 5 o in
    match o with
    | Completed _ _ _ => (Ret true, w', [run])
    | ProcRaise e =>
        if is_SubprocessError e || is_FileNotFoundError e then
          (Ret false, w',
           [run;
            EvPrint "Error: FFmpeg not found. Please install FFmpeg and ensure it's in your PATH."])
        else (Raise e, w', [run])
    end.
Proof.
  intros exec w. unfold check_ffmpeg, try_except, bind, subprocess_run, ret, print.
  destruct (exec ["ffmpeg"; "-version"] 5%Z (w_fs w)) as [[rc so se|e] f'];
    [reflexivity|].
  cbn [select_handler].
  destruct (is_SubprocessError e || is_FileNotFoundError e); reflexivity.
Qed.

(** [find_and_transcode_videos], by the return it leaves through. *)
Lemma find_and_transcode_videos_spec :
  forall (exec : exec_t) folder_path output_folder replace_original w,
    find_and_transcode_videos exec folder_path output_folder replace_original w =
    let folder := pathlib.Path folder_path in
    if negb (fs_exists folder (w_fs w)) then
      (Ret FolderMissing, w,
       [EvPrint ("Error: Folder '" ++ folder_path ++ "' does not exist.")])
    else if negb (fs_is_dir folder (w_fs w)) then
      (Ret NotADirectory, w,
       [EvPrint ("Error: '" ++ folder_path ++ "' is not a directory.")])
    else
      match check_ffmpeg exec w with
      | (Raise e, w1, t1) => (Raise e, w1, t1)
      | (Ret false, w1, t1) => (Ret ToolNotFound, w1, t1)
      | (Ret true, w1, t1) =>
          let video_files := scan_result folder (w_fs w1) in
          let total := List.length video_files in
          let scanning :=
            [EvPrint ("Scanning for videos in: " ++ pathlib.str folder);
             EvPrint (PyStr.times "-" 50)] in
          let found :=
            EvPrint (nl ++ "Found " ++ PyStr.of_nat total ++ " video(s) to transcode:")
            :: (found_lines 1 video_files
                ++ [EvPrint (nl ++ PyStr.times "=" 50)])%list in
          match video_files with
          | [] =>
              (Ret NothingToTranscode, w1,
               t1 ++ scanning ++ [EvPrint "No videos found that need transcoding."])%list
          | _ :: _ =>
              match transcode_all exec folder output_folder replace_original
                      total 1 video_files 0 w1 with
              | (Ret s, w2, t2) =>
                  (Ret (Finished s total), w2,
                   t1 ++ scanning ++ found ++ t2
                      ++ [EvPrint (nl ++ PyStr.times "=" 50);
                          EvPrint (summary_line s total)])%list
              | (Raise e, w2, t2) =>
                  (Raise e, w2, t1 ++ scanning ++ found ++ t2)%list
              end
          end
      end.
Proof.
  intros exec fp o ro w. unfold find_and_transcode_videos. cbv zeta.
  rewrite (bind_pure _ _ w (fs_exists (pathlib.Path fp) (w_fs w)) eq_refl).
  destruct (negb (fs_exists (pathlib.Path fp) (w_fs w))).
  { rewrite bind_print. reflexivity. }
  rewrite (bind_pure _ _ w (fs_is_dir (pathlib.Path fp) (w_fs w)) eq_refl).
  destruct (negb (fs_is_dir (pathlib.Path fp) (w_fs w))).
  { rewrite bind_print. reflexivity. }
  unfold bind at 1.
  destruct (check_ffmpeg exec w) as [[[[|]|e] w1] t1]; cbn [negb];
    [|unfold ret; now rewrite app_nil_r|reflexivity].
  rewrite !bind_print.
  rewrite (bind_pure _ _ w1 (fs_rglob (pathlib.Path fp) (w_fs w1)) eq_refl).
  rewrite (bind_pure _ _ w1 _ (scan_videos_filter exec _ [] w1)).
  cbn [app]. fold (scan_result (pathlib.Path fp) (w_fs w1)).
  destruct (scan_result (pathlib.Path fp) (w_fs w1)) as [|v vs] eqn:Es.
  - rewrite bind_print. reflexivity.
  - rewrite bind_print.
    unfold bind at 1. rewrite print_found_spec.
    rewrite bind_print. unfold bind at 1.
    destruct (transcode_all exec (pathlib.Path fp) o ro (List.length (v :: vs)) 1
                (v :: vs) 0 w1) as [[[s|e] w2] t2].
    + rewrite !bind_print. unfold ret. cbn [app].
      now rewrite <- !app_assoc.
    + cbn [app]. now rewrite <- !app_assoc.
Qed.

Lemma last_app_two :
  forall (l : list event) (a b d : event), last (l ++ [a; b]) d = b.
Proof.
  intros l a b d.
  change [a; b] with ([a] ++ [b])%list. rewrite app_assoc. apply last_last.
Qed.

(** C10: the success counter never decreases and grows by at most one per
    candidate: after any prefix [vs1] of the candidates it lies between its
    start and start plus [length vs1], and the rest of the loop adds between
    0 and [length vs2].  A finished run therefore reports [s/t] with
    [0 <= s <= t], [t] being the number of candidates the scan kept, and
    that report is the last line printed.  The scan always returns, and the
    candidates it keeps and the files it announces as skipped are together
    no more than the entries it visited: a skipped file is no candidate and
    counts in neither number. *)
Theorem C10_success_count_bounded :
  forall (exec : exec_t) folder folder_path output_folder replace_original
         total vs1 vs2 entries i c w,
    match transcode_all exec folder output_folder replace_original total i
            (vs1 ++ vs2)%list c w with
    | (Ret s, _, _) =>
        exists c1,
          fst (fst (transcode_all exec folder output_folder replace_original total
                      i vs1 c w)) = Ret c1
          /\ c <= c1 <= c + List.length vs1
          /\ c1 <= s <= c1 + List.length vs2
    | (Raise _, _, _) => True
    end
    /\
    match find_and_transcode_videos exec folder_path output_folder replace_original w with
    | (Ret (Finished s t), _, tr) =>
        0 <= s <= t
        /\ t = List.length (scan_result (pathlib.Path folder_path)
                              (w_fs (snd (fst (check_ffmpeg exec w)))))
        /\ last tr (EvPrint "") = EvPrint (summary_line s t)
    | _ => True
    end
    /\
    (let '(r, _, tr) := scan_videos exec entries [] w in
     exists video_files,
       r = Ret video_files
       /\ List.length video_files + List.length (filter is_skip_line tr)
          <= List.length entries).
Proof.
  intros exec folder fp o ro total vs1 vs2 entries i c w. split; [|split].
  - rewrite transcode_all_app.
    pose proof (transcode_all_bounds exec folder o ro total vs1 i c w) as H1.
    destruct (transcode_all exec folder o ro total i vs1 c w) as [[[c1|e] w1] t1];
      [|exact I].
    cbn [fst] in H1.
    pose proof (transcode_all_bounds exec folder o ro total vs2
                  (i + List.length vs1) c1 w1) as H2.
    destruct (transcode_all exec folder o ro total (i + List.length vs1) vs2 c1 w1)
      as [[[s|e] w2] t2]; [|exact I].
    cbn [fst] in H2. exists c1. repeat split; lia.
  - rewrite find_and_transcode_videos_spec. cbv zeta.
    destruct (negb (fs_exists (pathlib.Path fp) (w_fs w))); [exact I|].
    destruct (negb (fs_is_dir (pathlib.Path fp) (w_fs w))); [exact I|].
    destruct (check_ffmpeg exec w) as [[[[|]|e] w1] t1]; [|exact I|exact I].
    cbn [fst snd].
    destruct (scan_result (pathlib.Path fp) (w_fs w1)) as [|v vs] eqn:Es; [exact I|].
    pose proof (transcode_all_bounds exec (pathlib.Path fp) o ro
                  (List.length (v :: vs)) (v :: vs) 1 0 w1) as Hb.
    destruct (transcode_all exec (pathlib.Path fp) o ro (List.length (v :: vs)) 1
                (v :: vs) 0 w1) as [[[s|e] w2] t2]; [|exact I].
    cbn [fst] in Hb. split; [lia|]. split; [reflexivity|].
    rewrite !app_comm_cons, !app_assoc. apply last_app_two.
  - rewrite scan_videos_filter. cbn [app filter List.length].
    eexists. split; [reflexivity|].
    rewrite Nat.add_0_r. apply filter_length_le.
Qed.

(** ** The order of the checks in [main] *)

(** [main] with at least a folder argument, by the return it leaves through. *)
Lemma main_spec :
  forall (exec : exec_t) (prog folder_path : string) (args : list string) (w : world),
    main exec (prog :: folder_path :: args) w =
    match parse_args args None false with
    | Unknown a =>
        (Ret (UnknownArgument a), w, [EvPrint ("Unknown argument: " ++ a)])
    | Parsed output_folder replace_original =>
        if replace_original && truthy_opt output_folder then
          (Ret ConflictingOptions, w,
           [EvPrint "Error: Cannot use --replace-original with --output-folder"])
        else if replace_original then
          match w_stdin w with
          | [] =>
              (Raise (mkExn EOFError "EOF when reading a line"), w,
               [EvInput confirm_prompt None])
          | l :: r =>
              if negb (PyStr.lower l =? "y") then
                (Ret Cancelled, mkWorld (w_fs w) r,
                 [EvInput confirm_prompt (Some l); EvPrint "Cancelled."])
              else
                let '(res, w', t) :=
                  find_and_transcode_videos exec folder_path output_folder true
                    (mkWorld (w_fs w) r) in
                (map_outcome Ran res, w', EvInput confirm_prompt (Some l) :: t)
          end
        else
          let '(res, w', t) :=
            find_and_transcode_videos exec folder_path output_folder false w in
          (map_outcome Ran res, w', t)
    end.
Proof.
  intros exec prog fp args w. unfold main.
  destruct (parse_args args None false) as [o ro|a]; [|reflexivity].
  destruct (ro && truthy_opt o); [reflexivity|].
  destruct ro.
  - unfold bind at 1. unfold bind at 1. unfold input.
    destruct (w_stdin w) as [|l r]; [reflexivity|].
    destruct (negb (PyStr.lower l =? "y")); [reflexivity|].
    unfold ret at 1. cbn [negb app]. unfold bind, ret.
    destruct (find_and_transcode_videos exec fp o true (mkWorld (w_fs w) r))
      as [[[res|e] w'] t]; cbn [map_outcome app]; now rewrite ?app_nil_r.
  - unfold bind at 1. unfold ret at 1. cbn [negb app]. unfold bind, ret.
    destruct (find_and_transcode_videos exec fp o false w)
      as [[[res|e] w'] t]; cbn [map_outcome app]; now rewrite ?app_nil_r.
Qed.

Lemma transcode_video_no_input :
  forall (exec : exec_t) v out w,
    Forall (fun e => is_input e = false) (snd (transcode_video exec v out w)).
Proof.
  intros exec v out w. rewrite transcode_video_spec. cbv zeta.
  destruct (exec (ffmpeg_cmd v out) 3600%Z (w_fs w)) as [[rc so se|e] f'].
  - destruct (rc =? 0)%Z; cbn [snd app]; repeat constructor.
  - destruct (is_TimeoutExpired e); [|destruct (is_Exception e)]; cbn [snd app];
      repeat constructor.
Qed.

Lemma remove_original_no_input :
  forall ro v out w,
    Forall (fun e => is_input e = false) (snd (remove_original ro v out w)).
Proof.
  intros ro v out w. rewrite remove_original_spec.
  destruct (ro && negb (path_eqb v out)); [|constructor].
  destruct (fs_unlink v (w_fs w)); repeat constructor.
Qed.

Lemma mkdirs_are_not_inputs :
  forall l, Forall (fun e => is_mkdir e = true) l -> Forall (fun e => is_input e = false) l.
Proof.
  intros l H. eapply Forall_impl; [|exact H].
  intros [] He; cbn in *; congruence.
Qed.

Lemma transcode_all_no_input :
  forall (exec : exec_t) folder output_folder replace_original total vs i c w,
    Forall (fun e => is_input e = false)
      (snd (transcode_all exec folder output_folder replace_original total i vs c w)).
Proof.
  intros exec folder o ro total vs.
  induction vs as [|v rest IH]; intros i c w.
  - constructor.
  - rewrite transcode_all_cons. cbv zeta.
    pose proof (determine_output_path_events folder o ro v w) as Hd.
    apply mkdirs_are_not_inputs in Hd.
    destruct (determine_output_path folder o ro v w) as [[[out|e] w1] t1];
      cbn [snd] in Hd; [|cbn [snd]; constructor; [reflexivity|exact Hd]].
    pose proof (transcode_video_no_input exec v out w1) as H2.
    destruct (transcode_video exec v out w1) as [[[[|]|e] w2] t2]; cbn [snd] in H2.
    + pose proof (remove_original_no_input ro v out w2) as H3.
      destruct (remove_original ro v out w2) as [[[[]|e] w3] t3]; cbn [snd] in H3.
      * specialize (IH (S i) (c + 1) w3).
        destruct (transcode_all exec folder o ro total (S i) rest (c + 1) w3)
          as [[r w4] t4].
        cbn [snd] in *. constructor; [reflexivity|].
        repeat (apply Forall_app; split); assumption.
      * cbn [snd]. constructor; [reflexivity|].
        repeat (apply Forall_app; split); assumption.
    + specialize (IH (S i) c w2).
      destruct (transcode_all exec folder o ro total (S i) rest c w2)
        as [[r w4] t4].
      cbn [snd] in *. constructor; [reflexivity|].
      repeat (apply Forall_app; split); assumption.
    + cbn [snd]. constructor; [reflexivity|].
      apply Forall_app; split; assumption.
Qed.

Lemma found_lines_no_input :
  forall vs i, Forall (fun e => is_input e = false) (found_lines i vs).
Proof.
  induction vs as [|v rest IH]; intro i; cbn; constructor; auto.
Qed.

(** The events of the version probe: the probe itself, then at most the
    error line. *)
Lemma check_ffmpeg_events :
  forall (exec : exec_t) (w : world),
    exists o rest,
      snd (check_ffmpeg exec w) = version_probe o :: rest
      /\ Forall (fun e => is_print e = true) rest
      /\ (fst (fst (check_ffmpeg exec w)) = Ret false ->
          filter is_side_effect (snd (check_ffmpeg exec w)) = [version_probe o]).
Proof.
  intros exec w. rewrite check_ffmpeg_spec.
  destruct (exec ["ffmpeg"; "-version"] 5%Z (w_fs w)) as [[rc so se|e] f'].
  - exists (Completed rc so se), []. cbn.
    split; [reflexivity|]. split; [constructor|]. intro H; discriminate H.
  - destruct (is_SubprocessError e || is_FileNotFoundError e).
    + eexists (ProcRaise e), [_]. cbn.
      split; [reflexivity|]. split; [repeat constructor|]. reflexivity.
    + exists (ProcRaise e), []. cbn.
      split; [reflexivity|]. split; [constructor|]. intro H; discriminate H.
Qed.

Lemma prints_are_not_inputs :
  forall l, Forall (fun e => is_print e = true) l -> Forall (fun e => is_input e = false) l.
Proof.
  intros l H. eapply Forall_impl; [|exact H].
  intros [] He; cbn in *; congruence.
Qed.

(** [find_and_transcode_videos] never prompts; its first process, if any,
    is the version probe; and when that probe fails as caught, nothing else
    touches a file or starts a process. *)
Lemma find_and_transcode_videos_order :
  forall (exec : exec_t) folder_path output_folder replace_original w,
    let '(res, _, tr) :=
      find_and_transcode_videos exec folder_path output_folder replace_original w in
    Forall (fun e => is_input e = false) tr
    /\ match filter is_run tr with
       | [] => True
       | e :: _ => exists o, e = version_probe o
       end
    /\ match res with
       | Ret ToolNotFound => exists o, filter is_side_effect tr = [version_probe o]
       | _ => True
       end.
Proof.
  intros exec fp o ro w. rewrite find_and_transcode_videos_spec. cbv zeta.
  destruct (negb (fs_exists (pathlib.Path fp) (w_fs w)));
    [cbn; repeat split; repeat constructor|].
  destruct (negb (fs_is_dir (pathlib.Path fp) (w_fs w)));
    [cbn; repeat split; repeat constructor|].
  destruct (check_ffmpeg_events exec w) as (po & rest & Ht & Hp & Hf).
  destruct (check_ffmpeg exec w) as [[[[|]|e] w1] t1]; cbn [fst snd] in Ht, Hf; subst t1.
  - destruct (scan_result (pathlib.Path fp) (w_fs w1)) as [|v vs].
    + split; [|split; [|exact I]].
      * constructor; [reflexivity|].
        apply Forall_app; split; [now apply prints_are_not_inputs|repeat constructor].
      * cbn. eauto.
    + pose proof (transcode_all_no_input exec (pathlib.Path fp) o ro
                    (List.length (v :: vs)) (v :: vs) 1 0 w1) as Hn.
      destruct (transcode_all exec (pathlib.Path fp) o ro (List.length (v :: vs)) 1
                  (v :: vs) 0 w1) as [[[s|e] w2] t2]; cbn [snd] in Hn.
      * split; [|split; [|exact I]]; [|cbn; eauto].
        constructor; [reflexivity|].
        apply Forall_app; split; [now apply prints_are_not_inputs|].
        repeat (apply Forall_cons; [reflexivity|]).
        repeat (apply Forall_app; split);
          auto using found_lines_no_input; repeat constructor.
      * split; [|split; [|exact I]]; [|cbn; eauto].
        constructor; [reflexivity|].
        apply Forall_app; split; [now apply prints_are_not_inputs|].
        repeat (apply Forall_cons; [reflexivity|]).
        repeat (apply Forall_app; split);
          auto using found_lines_no_input; repeat constructor.
  - split; [|split].
    + constructor; [reflexivity|now apply prints_are_not_inputs].
    + cbn. eauto.
    + exists po. now apply Hf.
  - split; [|split; [|exact I]].
    + constructor; [reflexivity|now apply prints_are_not_inputs].
    + cbn. eauto.
Qed.

Lemma no_input_existsb :
  forall l, Forall (fun e => is_input e = false) l -> existsb is_input l = false.
Proof.
  intros l H. induction H as [|e l He _ IH]; [reflexivity|].
  cbn. now rewrite He, IH.
Qed.

(** C4, as stated, fails: with [--replace-original] the prompt is the first
    thing [main] does.  On a host without the encoder the user is asked to
    confirm and only then told that the tool is missing; and when the user
    declines, the tool is never checked at all. *)
Lemma C4_prompt_shown_before_tool_check :
  main exec_missing ["prog"; "root"; "--replace-original"] (mkWorld fs_scenario ["y"])
  = (Ret (Ran ToolNotFound), mkWorld fs_scenario [],
     [EvInput confirm_prompt (Some "y");
      version_probe (ProcRaise (mkExn FileNotFoundError "No such file or directory"));
      EvPrint "Error: FFmpeg not found. Please install FFmpeg and ensure it's in your PATH."])
  /\ main exec_missing ["prog"; "root"; "--replace-original"] (mkWorld fs_scenario ["n"])
     = (Ret Cancelled, mkWorld fs_scenario [],
        [EvInput confirm_prompt (Some "n"); EvPrint "Cancelled."]).
Proof.
  split; vm_compute; reflexivity.
Qed.

(** C4 (amended): the checks of a run come in this order.  When
    [--replace-original] is given (and no output folder conflicts with it),
    the confirmation prompt is the first event of the run; there is no
    prompt after the first event.  The first process of a run, if there is
    one, is the encoder's version probe, so the probe comes after the
    prompt and before any encoder run; and when the run ends as
    [ToolNotFound], that probe is its only side effect. *)
Theorem C4_prompt_then_tool_check :
  forall (exec : exec_t) (prog folder_path : string) (args : list string) (w : world),
    let '(res, _, tr) := main exec (prog :: folder_path :: args) w in
    match parse_args args None false with
    | Parsed o true =>
        if truthy_opt o then True
        else hd_error tr = Some (EvInput confirm_prompt (hd_error (w_stdin w)))
    | _ => True
    end
    /\ existsb is_input (tl tr) = false
    /\ match filter is_run tr with
       | [] => True
       | e :: _ => exists o, e = version_probe o
       end
    /\ match res with
       | Ret (Ran ToolNotFound) => exists o, filter is_side_effect tr = [version_probe o]
       | _ => True
       end.
Proof.
  intros exec prog fp args w. rewrite main_spec.
  destruct (parse_args args None false) as [o ro|a]; [|cbn; auto].
  destruct ro; cbn [andb].
  - destruct (truthy_opt o); [cbn; auto|].
    destruct (w_stdin w) as [|l r]; [cbn; auto|].
    destruct (negb (PyStr.lower l =? "y")); [cbn; auto|].
    pose proof (find_and_transcode_videos_order exec fp o true (mkWorld (w_fs w) r)) as H.
    destruct (find_and_transcode_videos exec fp o true (mkWorld (w_fs w) r))
      as [[res w'] tr].
    destruct H as (Hn & Hr & Ht).
    split; [reflexivity|]. split; [now apply no_input_existsb|].
    split; [exact Hr|].
    destruct res as [[]|e]; cbn [map_outcome]; try exact I. exact Ht.
  - pose proof (find_and_transcode_videos_order exec fp o false w) as H.
    destruct (find_and_transcode_videos exec fp o false w) as [[res w'] tr].
    destruct H as (Hn & Hr & Ht).
    split; [exact I|]. split.
    { destruct tr as [|e tr]; [reflexivity|]. inversion Hn; subst.
      now apply no_input_existsb. }
    split; [exact Hr|].
    destruct res as [[]|e]; cbn [map_outcome]; try exact I. exact Ht.
Qed.

(** ** Removing the original *)

Lemma path_eqb_eq : forall p q, path_eqb p q = true <-> p = q.
Proof.
  induction p as [|x p IH]; intros [|y q]; cbn; split; intro H;
    try reflexivity; try discriminate.
  - apply andb_true_iff in H as [Hx Hp].
    apply String.eqb_eq in Hx. apply IH in Hp. now subst.
  - inversion H; subst. apply andb_true_iff. split.
    + apply String.eqb_refl.
    + now apply IH.
Qed.

Lemma path_eqb_neq : forall p q, path_eqb p q = false <-> p <> q.
Proof.
  intros p q. split.
  - intros H E. apply path_eqb_eq in E. congruence.
  - intro H. destruct (path_eqb p q) eqn:E; [|reflexivity].
    apply path_eqb_eq in E. contradiction.
Qed.

Lemma fs_find_remove : forall p f, fs_find p (fs_remove p f) = None.
Proof.
  intros p f. induction f as [|[q k] r IH]; [reflexivity|].
  cbn. destruct (path_eqb q p) eqn:E; [exact IH|].
  cbn. now rewrite E.
Qed.

(** After a successful [unlink] the path no longer exists. *)
Lemma fs_unlink_removes :
  forall p f f', fs_unlink p f = Ret f' -> fs_exists p f' = false.
Proof.
  intros p f f'. unfold fs_unlink, fs_exists, fs_kind.
  destruct (is_root p); [discriminate|].
  destruct (fs_find p f) as [[|]|]; try discriminate.
  intro H. inversion H; subst. now rewrite fs_find_remove.
Qed.

(** C7: under the replace-original policy, after a transcode that exited
    with code 0, [remove_original] never raises; when the output path is the
    input path it does nothing; when they differ it unlinks the input, and
    either the input is gone and the removal is announced, or the world is
    as before and a warning carrying the error is printed.  In every case
    the loop goes on with the counter incremented: a candidate alone ends
    with the counter one higher. *)
Theorem C7_original_removed_iff_paths_differ :
  forall (exec : exec_t) folder output_folder total i v rest c w out so se f',
    truthy_opt output_folder = false ->
    pathlib.with_suffix v ".mp4" = Ret out ->
    exec (ffmpeg_cmd v out) 3600%Z (w_fs w) = (Completed 0 so se, f') ->
    let w2 := mkWorld f' (w_stdin w) in
    let removal := remove_original true v out w2 in
    let w3 := snd (fst removal) in
    let t3 := snd removal in
    fst (fst removal) = Ret tt
    /\ (v = out -> w3 = w2 /\ t3 = [])
    /\ (v <> out ->
        match fs_unlink v f' with
        | Ret f'' =>
            w3 = mkWorld f'' (w_stdin w)
            /\ fs_exists v f'' = false
            /\ t3 = [EvUnlink v None;
                     EvPrint ("Removed original: " ++ pathlib.name v)]
        | Raise e =>
            w3 = w2
            /\ t3 = [EvUnlink v (Some e);
                     EvPrint ("Warning: Could not remove original file: " ++ exn_msg e)]
        end)
    /\ transcode_all exec folder output_folder true total i (v :: rest) c w
       = (let '(r, w4, t4) :=
            transcode_all exec folder output_folder true total (S i) rest (c + 1) w3 in
          (r, w4,
           EvPrint (nl ++ "[" ++ PyStr.of_nat i ++ "/" ++ PyStr.of_nat total ++ "]")
             :: snd (transcode_video exec v out w) ++ t3 ++ t4)%list)
    /\ fst (fst (transcode_all exec folder output_folder true total i [v] c w))
       = Ret (c + 1).
Proof.
  intros exec folder o total i v rest c w out so se f' Ho Hout Hexec.
  cbv zeta.
  assert (Hstep : forall rest',
             transcode_all exec folder o true total i (v :: rest') c w
             = (let '(r, w4, t4) :=
                  transcode_all exec folder o true total (S i) rest' (c + 1)
                    (snd (fst (remove_original true v out (mkWorld f' (w_stdin w))))) in
                (r, w4,
                 EvPrint (nl ++ "[" ++ PyStr.of_nat i ++ "/" ++ PyStr.of_nat total ++ "]")
                   :: snd (transcode_video exec v out w)
                   ++ snd (remove_original true v out (mkWorld f' (w_stdin w)))
                   ++ t4)%list)).
  { intro rest'. rewrite transcode_all_cons. cbv zeta.
    rewrite (determine_output_path_sibling _ _ _ _ _ Ho), Hout.
    rewrite transcode_video_spec. cbv zeta. rewrite Hexec.
    cbn [Z.eqb app snd].
    destruct (remove_original_quiet true v out (mkWorld f' (w_stdin w))) as [Hr _].
    destruct (remove_original true v out (mkWorld f' (w_stdin w)))
      as [[[[]|e] w3] t3]; cbn [fst snd] in *; [|discriminate].
    reflexivity. }
  split; [apply remove_original_quiet|].
  split; [|split; [|split]].
  - intro E. apply path_eqb_eq in E.
    rewrite remove_original_spec, E. split; reflexivity.
  - intro E. apply path_eqb_neq in E.
    rewrite remove_original_spec, E. cbn [andb negb w_fs w_stdin].
    destruct (fs_unlink v f') as [f''|e] eqn:Eu; cbn [fst snd].
    + repeat split. exact (fs_unlink_removes _ _ _ Eu).
    + split; reflexivity.
  - apply Hstep.
  - rewrite Hstep. reflexivity.
Qed.

Lemma C7_original_removed_iff_paths_differ_witness :
  truthy_opt None = false
  /\ pathlib.with_suffix ["root"; "a.avi"] ".mp4" = Ret ["root"; "a.mp4"]
  /\ snd (remove_original true ["root"; "a.avi"] ["root"; "a.mp4"]
            (mkWorld (fs_remove ["root"; "a.avi"] fs_scenario) []))
     = [EvUnlink ["root"; "a.avi"] (Some (mkExn FileNotFoundError "root/a.avi"));
        EvPrint "Warning: Could not remove original file: root/a.avi"]
  /\ fst (fst (transcode_all exec_consumes_input ["root"] None true 1 1
                 [["root"; "a.avi"]] 0 (mkWorld fs_scenario [])))
     = Ret 1.
Proof.
  split; [reflexivity|]. split; [reflexivity|]. split; [reflexivity|].
  exact (proj2 (proj2 (proj2 (proj2
    (C7_original_removed_iff_paths_differ exec_consumes_input ["root"] None 1 1
       ["root"; "a.avi"] [] 0 (mkWorld fs_scenario []) ["root"; "a.mp4"] "" ""
       (fs_remove ["root"; "a.avi"] fs_scenario)
       eq_refl eq_refl eq_refl))))).
Defined.

(** ** Strings and paths *)

Lemma str_length_app :
  forall a b : string, String.length (a ++ b) = String.length a + String.length b.
Proof.
  induction a as [|c a IH]; intro b; cbn; [reflexivity|]. now rewrite IH.
Qed.

Lemma length_take :
  forall (s : string) (i : nat), i <= String.length s -> String.length (PyStr.take i s) = i.
Proof.
  induction s as [|c s IH]; intros [|i] H; cbn in *; try reflexivity; try lia.
  rewrite IH; lia.
Qed.

Lemma length_drop :
  forall (s : string) (i : nat),
    String.length (PyStr.drop i s) = String.length s - i.
Proof.
  induction s as [|c s IH]; intros [|i]; cbn; try reflexivity. apply IH.
Qed.

Lemma drop_app_length :
  forall a b : string, PyStr.drop (String.length a) (a ++ b) = b.
Proof.
  induction a as [|c a IH]; intro b; cbn; [now destruct b|]. apply IH.
Qed.

Lemma rfind_none :
  forall (c : ascii) (s : string), PyStr.contains c s = false -> PyStr.rfind c s = None.
Proof.
  induction s as [|x s IH]; intro H; cbn in *; [reflexivity|].
  apply orb_false_iff in H as [Hx Hs]. now rewrite (IH Hs), Hx.
Qed.

(** The last occurrence of [c] in [a ++ c ++ b], when [b] has none. *)
Lemma rfind_app :
  forall (c : ascii) (a b : string),
    PyStr.contains c b = false ->
    PyStr.rfind c (a ++ String c b) = Some (String.length a).
Proof.
  intros c a b Hb. induction a as [|x a IH]; cbn.
  - now rewrite (rfind_none c b Hb), Ascii.eqb_refl.
  - now rewrite IH.
Qed.

Lemma name_snoc :
  forall (l : path) (x : string), x <> "/" -> pathlib.name (l ++ [x])%list = x.
Proof.
  intros l x Hx. destruct l as [|a [|b l]].
  - cbn. apply String.eqb_neq in Hx. now rewrite Hx.
  - reflexivity.
  - change (pathlib.name ((a :: b :: l) ++ [x])%list)
      with (last ((a :: b :: l) ++ [x])%list "").
    apply last_last.
Qed.

Lemma slash_is_not_a_video_file :
  forall l : path, is_video_file (l ++ ["/"])%list = false.
Proof.
  intro l.
  assert (H : pathlib.name (l ++ ["/"])%list = "" \/ pathlib.name (l ++ ["/"])%list = "/").
  { destruct l as [|a [|b l]]; [left; reflexivity|right; reflexivity|].
    right. change (pathlib.name ((a :: b :: l) ++ ["/"])%list)
             with (last ((a :: b :: l) ++ ["/"])%list "").
    apply last_last. }
  unfold is_video_file, pathlib.suffix. destruct H as [H|H]; rewrite H; reflexivity.
Qed.

(** A video file has a proper suffix: its name splits at a dot that is
    neither its first nor its last character. *)
Lemma video_file_name_splits :
  forall p : path,
    is_video_file p = true ->
    exists i,
      PyStr.rfind "." (pathlib.name p) = Some i
      /\ 0 < i < String.length (pathlib.name p) - 1
      /\ pathlib.suffix p = PyStr.drop i (pathlib.name p)
      /\ pathlib.stem p = PyStr.take i (pathlib.name p).
Proof.
  intros p H. unfold is_video_file, pathlib.suffix, pathlib.stem in *.
  destruct (PyStr.rfind "." (pathlib.name p)) as [i|]; [|discriminate].
  destruct ((0 <? i) && (i <? String.length (pathlib.name p) - 1))%nat eqn:E;
    [|discriminate].
  apply andb_true_iff in E as [E1 E2].
  apply Nat.ltb_lt in E1, E2.
  exists i. repeat split; assumption.
Qed.

(** Replacing the suffix of a name that splits at [i]. *)
Lemma with_suffix_mp4 :
  forall (l : path) (nm : string) (i : nat),
    nm <> "/" ->
    PyStr.rfind "." nm = Some i ->
    0 < i < String.length nm - 1 ->
    pathlib.with_suffix (l ++ [nm])%list ".mp4"
    = Ret (l ++ [(PyStr.take i nm ++ ".mp4")%string])%list.
Proof.
  intros l nm i Hnm Hr Hi.
  unfold pathlib.with_suffix, pathlib.suffix.
  rewrite (name_snoc l nm Hnm), Hr, removelast_last.
  change (negb (pathlib.valid_suffix ".mp4")) with false. cbv iota.
  assert (E1 : (nm =? "") = false).
  { apply String.eqb_neq. intro E. subst. cbn in Hi. lia. }
  rewrite E1.
  assert (E2 : ((0 <? i) && (i <? String.length nm - 1))%nat = true).
  { apply andb_true_iff. split; apply Nat.ltb_lt; lia. }
  rewrite E2.
  assert (E3 : (PyStr.drop i nm =? "") = false).
  { apply String.eqb_neq. intro E.
    pose proof (length_drop nm i) as L. rewrite E in L. cbn in L. lia. }
  rewrite E3, length_drop.
  replace (String.length nm - (String.length nm - i)) with i by lia.
  reflexivity.
Qed.

Lemma suffix_of_mp4_name :
  forall (l : path) (s : string),
    s <> "" -> pathlib.suffix (l ++ [(s ++ ".mp4")%string])%list = ".mp4".
Proof.
  intros l s Hs.
  assert (Hn : s ++ ".mp4" <> "/").
  { intro E. apply (f_equal String.length) in E.
    rewrite str_length_app in E. cbn in E. lia. }
  unfold pathlib.suffix. rewrite (name_snoc l _ Hn).
  change (s ++ ".mp4") with (s ++ String "." "mp4").
  rewrite (rfind_app "." s "mp4" eq_refl), str_length_app.
  assert (0 < String.length s) by (destruct s; [congruence|cbn; lia]).
  assert (E : ((0 <? String.length s)
               && (String.length s <? String.length s + String.length ".mp4" - 1))%nat
              = true).
  { apply andb_true_iff. split; apply Nat.ltb_lt; cbn; lia. }
  rewrite E. apply drop_app_length.
Qed.

Lemma parent_snoc :
  forall (l : path) (x : string), x <> "/" -> pathlib.parent (l ++ [x])%list = l.
Proof.
  intros l x Hx. destruct l as [|a [|b l]].
  - cbn. apply String.eqb_neq in Hx. now rewrite Hx.
  - reflexivity.
  - change (pathlib.parent ((a :: b :: l) ++ [x])%list)
      with (removelast ((a :: b :: l) ++ [x])%list).
    apply removelast_last.
Qed.

Lemma is_prefix_app : forall b r : path, pathlib.is_prefix b (b ++ r)%list = true.
Proof.
  induction b as [|x b IH]; intro r; cbn; [reflexivity|].
  now rewrite String.eqb_refl, IH.
Qed.

(** The path of an entry below [folder], relative to [folder]. *)
Lemma relative_to_app :
  forall folder rel : path,
    pathlib.is_absolute rel = false ->
    pathlib.relative_to (folder ++ rel)%list folder = Ret rel.
Proof.
  intros folder rel Hrel. unfold pathlib.relative_to.
  rewrite is_prefix_app.
  assert (E : Bool.eqb (pathlib.is_absolute folder)
                (pathlib.is_absolute (folder ++ rel)%list) = true).
  { destruct folder as [|a folder]; cbn.
    - now rewrite Hrel.
    - apply eqb_reflx. }
  rewrite E. cbn [andb].
  now rewrite skipn_app, skipn_all, Nat.sub_diag.
Qed.

(** ** Creating directories *)

Lemma path_eqb_refl : forall p, path_eqb p p = true.
Proof. intro p. now apply path_eqb_eq. Qed.

Lemma fs_find_app_some :
  forall q f l k, fs_find q f = Some k -> fs_find q (f ++ l)%list = Some k.
Proof.
  intros q f l k. induction f as [|[p k'] f IH]; cbn; [discriminate|].
  destruct (path_eqb p q); auto.
Qed.

Lemma fs_find_app_none :
  forall q f k, fs_find q f = None -> fs_find q (f ++ [(q, k)])%list = Some k.
Proof.
  intros q f k. induction f as [|[p k'] f IH]; cbn.
  - now rewrite path_eqb_refl.
  - destruct (path_eqb p q); [discriminate|]. exact IH.
Qed.

Lemma fs_extends_refl : forall f, fs_extends f f.
Proof. intros f q k H. exact H. Qed.

Lemma fs_extends_trans :
  forall f g h, fs_extends f g -> fs_extends g h -> fs_extends f h.
Proof. intros f g h H1 H2 q k H. auto. Qed.

Lemma os_mkdir_creates :
  forall p f f', os_mkdir p f = Ret f' -> fs_is_dir p f' = true /\ fs_extends f f'.
Proof.
  intros p f f'. unfold os_mkdir.
  destruct (fs_kind p f) eqn:Ek; [discriminate|].
  destruct (fs_kind (pathlib.parent p) f) as [[|]|]; try discriminate.
  intro H. inversion H; subst. clear H.
  unfold fs_kind in Ek. destruct (is_root p) eqn:Er; [discriminate|].
  split.
  - unfold fs_is_dir, fs_kind. rewrite Er. now rewrite (fs_find_app_none p f KDir Ek).
  - intros q k. unfold fs_kind. destruct (is_root q); [auto|].
    apply fs_find_app_some.
Qed.

(** With [exist_ok], [mkdir] on a directory that exists changes nothing
    and raises nothing. *)
Lemma mkdir_rec_existing :
  forall n parents p f,
    fs_is_dir p f = true -> mkdir_rec n parents true p f = Ret f.
Proof.
  intros n parents p f H.
  assert (E : os_mkdir p f = Raise (mk_exn FileExistsError p)).
  { unfold os_mkdir. unfold fs_is_dir in H.
    destruct (fs_kind p f) as [[|]|]; try discriminate. reflexivity. }
  destruct n; cbn [mkdir_rec]; rewrite E;
    change (is_FileNotFoundError (mk_exn FileExistsError p)) with false;
    cbv iota; rewrite H; reflexivity.
Qed.

(** When [mkdir] returns, the path is a directory and nothing was lost. *)
Lemma mkdir_rec_creates :
  forall n parents exist_ok p f f',
    mkdir_rec n parents exist_ok p f = Ret f' ->
    fs_is_dir p f' = true /\ fs_extends f f'.
Proof.
  induction n as [|n IH]; intros parents exist_ok p f f' H; cbn [mkdir_rec] in H.
  - destruct (os_mkdir p f) as [f0|e] eqn:Eo.
    + inversion H; subst. now apply os_mkdir_creates.
    + destruct (is_FileNotFoundError e).
      * destruct (negb parents || path_eqb (pathlib.parent p) p); discriminate.
      * destruct (negb exist_ok || negb (fs_is_dir p f)) eqn:E; [discriminate|].
        inversion H; subst. apply orb_false_iff in E as [_ E].
        apply negb_false_iff in E. split; [exact E|apply fs_extends_refl].
  - destruct (os_mkdir p f) as [f0|e] eqn:Eo.
    + inversion H; subst. now apply os_mkdir_creates.
    + destruct (is_FileNotFoundError e).
      * destruct (negb parents || path_eqb (pathlib.parent p) p); [discriminate|].
        destruct (mkdir_rec n true true (pathlib.parent p) f) as [f1|e1] eqn:E1;
          [|discriminate].
        destruct (IH _ _ _ _ _ E1) as [_ X1].
        destruct (IH _ _ _ _ _ H) as [D X2].
        split; [exact D|]. eapply fs_extends_trans; eassumption.
      * destruct (negb exist_ok || negb (fs_is_dir p f)) eqn:E; [discriminate|].
        inversion H; subst. apply orb_false_iff in E as [_ E].
        apply negb_false_iff in E. split; [exact E|apply fs_extends_refl].
Qed.

Lemma fs_extends_is_dir :
  forall f f' p, fs_extends f f' -> fs_is_dir p f = true -> fs_is_dir p f' = true.
Proof.
  intros f f' p X H. unfold fs_is_dir in *.
  destruct (fs_kind p f) as [[|]|] eqn:E; try discriminate.
  now rewrite (X p KDir E).
Qed.

(** [mkdir(parents=True, exist_ok=True)] is idempotent. *)
Lemma fs_mkdir_idempotent :
  forall p f f',
    fs_mkdir true true p f = Ret f' ->
    fs_is_dir p f' = true /\ fs_extends f f' /\ fs_mkdir true true p f' = Ret f'.
Proof.
  intros p f f' H. unfold fs_mkdir in *.
  destruct (mkdir_rec_creates _ _ _ _ _ _ H) as [D X].
  repeat split; try assumption. now apply mkdir_rec_existing.
Qed.

Lemma parent_shorter :
  forall p, path_eqb (pathlib.parent p) p = false ->
            S (List.length (pathlib.parent p)) = List.length p.
Proof.
  intros [|a [|b l]] H.
  - discriminate.
  - cbn in *. destruct (a =? "/"); [|reflexivity].
    rewrite path_eqb_refl in H. discriminate.
  - change (pathlib.parent (a :: b :: l)) with (removelast (a :: b :: l)).
    assert (Hne : a :: b :: l <> []) by discriminate.
    pose proof (app_removelast_last "" Hne) as E.
    apply (f_equal (@List.length string)) in E.
    rewrite length_app in E. cbn [List.length] in E.
    change (List.length (a :: b :: l)) with (S (S (List.length l))). lia.
Qed.

Lemma mkdir_rec_no_parents :
  forall n m exist_ok p f,
    mkdir_rec n false exist_ok p f = mkdir_rec m false exist_ok p f.
Proof.
  intros [|n] [|m] exist_ok p f; cbn [mkdir_rec]; reflexivity.
Qed.

(** The number of parts is enough fuel: more fuel changes nothing. *)
Lemma mkdir_rec_fuel :
  forall n m parents exist_ok p f,
    List.length p <= n -> List.length p <= m ->
    mkdir_rec n parents exist_ok p f = mkdir_rec m parents exist_ok p f.
Proof.
  induction n as [|n IH]; intros m parents exist_ok p f Hn Hm.
  - destruct p; [|cbn in Hn; lia].
    destruct m; reflexivity.
  - destruct m as [|m].
    + destruct p; [|cbn in Hm; lia]. reflexivity.
    + cbn [mkdir_rec]. destruct (os_mkdir p f) as [f0|e]; [reflexivity|].
      destruct (is_FileNotFoundError e); [|reflexivity].
      destruct (negb parents || path_eqb (pathlib.parent p) p) eqn:E; [reflexivity|].
      apply orb_false_iff in E as [_ E]. apply parent_shorter in E.
      rewrite (IH m true true (pathlib.parent p) f) by lia.
      destruct (mkdir_rec m true true (pathlib.parent p) f); [|reflexivity].
      apply mkdir_rec_no_parents.
Qed.

(** ** The output path under a separate output folder *)

Lemma is_absolute_snoc :
  forall (dirs : path) (x y : string),
    y <> "/" ->
    pathlib.is_absolute (dirs ++ [x])%list = false ->
    pathlib.is_absolute (dirs ++ [y])%list = false.
Proof.
  intros [|d dirs] x y Hy H; cbn in *; [|exact H].
  now apply String.eqb_neq.
Qed.

Lemma mp4_name_is_not_slash : forall s : string, s ++ ".mp4" <> "/".
Proof.
  intros s E. apply (f_equal String.length) in E.
  rewrite str_length_app in E. cbn in E. lia.
Qed.

(** C6: with a (non-empty) output folder [out], a candidate
    [folder/dirs/nm] gets the output path [out/dirs/stem.mp4]: the output
    root joined with the path relative to the scanned root, the extension
    replaced by [.mp4] whatever its casing was, the directories in between
    kept.  Both the output root and the parent of the output are created
    with [parents=True, exist_ok=True]; afterwards they are directories,
    nothing that existed was lost, and creating them again changes nothing
    and raises nothing.  The only way to fail is a [mkdir] that raises. *)
Theorem C6_output_folder_mirrors_structure :
  forall (folder : path) (out : string) (replace_original : bool)
         (dirs : list string) (nm : string) (w : world),
    PyStr.truthy out = true ->
    pathlib.is_absolute (dirs ++ [nm])%list = false ->
    is_video_file (folder ++ dirs ++ [nm])%list = true ->
    let inp := (folder ++ dirs ++ [nm])%list in
    let output_dir := pathlib.Path out in
    let mp4_name := (pathlib.stem inp ++ ".mp4")%string in
    pathlib.relative_to inp folder = Ret (dirs ++ [nm])%list
    /\ match determine_output_path folder (Some out) replace_original inp w with
       | (Ret output_path, w', tr) =>
           output_path = pathlib.truediv output_dir (dirs ++ [mp4_name])%list
           /\ output_path = (output_dir ++ dirs ++ [mp4_name])%list
           /\ pathlib.suffix output_path = ".mp4"
           /\ pathlib.parent output_path = (output_dir ++ dirs)%list
           /\ tr = [EvMkdir output_dir true true None;
                    EvMkdir (output_dir ++ dirs)%list true true None]
           /\ fs_is_dir output_dir (w_fs w') = true
           /\ fs_is_dir (output_dir ++ dirs)%list (w_fs w') = true
           /\ fs_extends (w_fs w) (w_fs w')
           /\ fs_mkdir true true output_dir (w_fs w') = Ret (w_fs w')
           /\ fs_mkdir true true (output_dir ++ dirs)%list (w_fs w') = Ret (w_fs w')
       | (Raise e, _, tr) =>
           exists p, last tr (EvPrint "") = EvMkdir p true true (Some e)
       end.
Proof.
  intros folder out ro dirs nm w Hout Hrel Hvid. cbv zeta.
  assert (Hnm : nm <> "/").
  { intro E. subst nm. rewrite app_assoc, slash_is_not_a_video_file in Hvid.
    discriminate. }
  assert (Hname : pathlib.name (folder ++ dirs ++ [nm])%list = nm).
  { rewrite app_assoc. now apply name_snoc. }
  destruct (video_file_name_splits _ Hvid) as (i & Hr & Hi & _ & Hstem).
  rewrite Hname in Hr, Hi, Hstem. rewrite Hstem.
  set (x := (PyStr.take i nm ++ ".mp4")%string).
  assert (Hx : x <> "/") by apply mp4_name_is_not_slash.
  assert (Hi' : i <= String.length nm) by lia.
  assert (Htake : PyStr.take i nm <> "").
  { intro E. pose proof (length_take nm i Hi') as L. rewrite E in L. cbn in L. lia. }
  split; [now apply relative_to_app|].
  rewrite (determine_output_path_folder _ _ _ _ _ Hout). cbv zeta.
  destruct (fs_mkdir true true (pathlib.Path out) (w_fs w)) as [f1|e] eqn:E1;
    [|eexists; reflexivity].
  rewrite (relative_to_app folder (dirs ++ [nm])%list Hrel).
  rewrite (with_suffix_mp4 dirs nm i Hnm Hr Hi). fold x.
  assert (Hdiv : pathlib.truediv (pathlib.Path out) (dirs ++ [x])%list
                 = (pathlib.Path out ++ dirs ++ [x])%list).
  { unfold pathlib.truediv. now rewrite (is_absolute_snoc dirs nm x Hx Hrel). }
  assert (Hpar : pathlib.parent (pathlib.Path out ++ dirs ++ [x])%list
                 = (pathlib.Path out ++ dirs)%list).
  { rewrite app_assoc. now apply parent_snoc. }
  rewrite Hdiv, Hpar.
  destruct (fs_mkdir true true (pathlib.Path out ++ dirs)%list f1) as [f2|e] eqn:E2;
    [|eexists; reflexivity].
  destruct (fs_mkdir_idempotent _ _ _ E1) as (D1 & X1 & _).
  destruct (fs_mkdir_idempotent _ _ _ E2) as (D2 & X2 & I2).
  cbn [w_fs].
  assert (D1' : fs_is_dir (pathlib.Path out) f2 = true)
    by (eapply fs_extends_is_dir; eassumption).
  repeat split; try assumption; try reflexivity.
  - rewrite app_assoc. now apply suffix_of_mp4_name.
  - eapply fs_extends_trans; eassumption.
  - now apply mkdir_rec_existing.
Qed.

Lemma C6_output_folder_mirrors_structure_witness :
  PyStr.truthy "out/h264" = true
  /\ pathlib.is_absolute ["Sub"; "CLIP.MoV"] = false
  /\ is_video_file ["root"; "Sub"; "CLIP.MoV"] = true
  /\ fst (fst (determine_output_path ["root"] (Some "out/h264") false
                 ["root"; "Sub"; "CLIP.MoV"] (mkWorld fs_scenario [])))
     = Ret ["out"; "h264"; "Sub"; "CLIP.mp4"].
Proof.
  split; [reflexivity|]. split; [reflexivity|]. split; [reflexivity|].
  pose proof (C6_output_folder_mirrors_structure ["root"] "out/h264" false
                ["Sub"] "CLIP.MoV" (mkWorld fs_scenario [])
                eq_refl eq_refl eq_refl) as H.
  cbv zeta in H. destruct H as [_ H].
  destruct (determine_output_path ["root"] (Some "out/h264") false
              (["root"] ++ ["Sub"] ++ ["CLIP.MoV"])%list (mkWorld fs_scenario []))
    as [[[p|e] w'] tr] eqn:E.
  - destruct H as (_ & H & _).
    change (["root"; "Sub"; "CLIP.MoV"])
      with (["root"] ++ ["Sub"] ++ ["CLIP.MoV"])%list.
    rewrite E. cbn [fst]. rewrite H. reflexivity.
  - vm_compute in E. discriminate E.
Defined.

(* ================================================================= *)
(** * Further properties of the script *)

(** ** [is_video_file]: only the lower-cased file name matters *)

Lemma lower_char_dot : forall c, Ascii.eqb (PyStr.lower_char c) "." = Ascii.eqb c ".".
Proof. intros [[] [] [] [] [] [] [] []]; reflexivity. Qed.

Lemma lower_char_idem : forall c, PyStr.lower_char (PyStr.lower_char c) = PyStr.lower_char c.
Proof. intros [[] [] [] [] [] [] [] []]; reflexivity. Qed.

Lemma lower_idem : forall s, PyStr.lower (PyStr.lower s) = PyStr.lower s.
Proof.
  induction s as [|c s IH]; cbn; [reflexivity|]. now rewrite lower_char_idem, IH.
Qed.

Lemma lower_length : forall s, String.length (PyStr.lower s) = String.length s.
Proof.
  induction s as [|c s IH]; cbn; [reflexivity|]. now rewrite IH.
Qed.

Lemma rfind_dot_lower : forall s, PyStr.rfind "." (PyStr.lower s) = PyStr.rfind "." s.
Proof.
  induction s as [|c s IH]; cbn; [reflexivity|]. now rewrite IH, lower_char_dot.
Qed.

Lemma drop_lower : forall s i, PyStr.drop i (PyStr.lower s) = PyStr.lower (PyStr.drop i s).
Proof.
  induction s as [|c s IH]; intros [|i]; cbn; try reflexivity. apply IH.
Qed.

(** The suffix of a name, as [pathlib.suffix] computes it from [p.name]. *)
Lemma suffix_snoc :
  forall (l : path) (x : string), pathlib.suffix (l ++ [x])%list = pathlib.suffix [x].
Proof.
  intros l x. destruct (String.eqb_spec x "/") as [E|E].
  - subst x.
    assert (H : pathlib.name (l ++ ["/"])%list = ""
                \/ pathlib.name (l ++ ["/"])%list = "/").
    { destruct l as [|a [|b l]]; [left; reflexivity|right; reflexivity|].
      right. change (pathlib.name ((a :: b :: l) ++ ["/"])%list)
               with (last ((a :: b :: l) ++ ["/"])%list "").
      apply last_last. }
    unfold pathlib.suffix. destruct H as [H|H]; rewrite H; reflexivity.
  - unfold pathlib.suffix. rewrite (name_snoc l x E).
    change (pathlib.name [x]) with (if x =? "/" then "" else x).
    apply String.eqb_neq in E. now rewrite E.
Qed.

Lemma lower_slash : forall x, PyStr.lower x = "/" -> x = "/".
Proof.
  intros [|c [|d x]] H; cbn in H; try discriminate.
  inversion H as [Hc]. f_equal.
  revert Hc. destruct c as [[] [] [] [] [] [] [] []]; cbn; intro Hc;
    (reflexivity || discriminate Hc).
Qed.

Lemma suffix_lower_name :
  forall x, pathlib.suffix [PyStr.lower x] = PyStr.lower (pathlib.suffix [x]).
Proof.
  intro x. unfold pathlib.suffix.
  change (pathlib.name [PyStr.lower x])
    with (if PyStr.lower x =? "/" then "" else PyStr.lower x).
  change (pathlib.name [x]) with (if x =? "/" then "" else x).
  destruct (String.eqb_spec x "/") as [E|E]; [subst; reflexivity|].
  destruct (String.eqb_spec (PyStr.lower x) "/") as [E'|E'];
    [apply lower_slash in E'; contradiction|].
  rewrite rfind_dot_lower, lower_length.
  destruct (PyStr.rfind "." x) as [i|]; [|reflexivity].
  destruct ((0 <? i) && (i <? String.length x - 1))%nat; [|reflexivity].
  apply drop_lower.
Qed.

(** X1: whether a path is a video file depends on the lower-cased file
    name alone: not on the directories, and not on the casing. *)
Theorem is_video_file_case_insensitive :
  forall (l1 l2 : path) (n1 n2 : string),
    PyStr.lower n1 = PyStr.lower n2 ->
    is_video_file (l1 ++ [n1])%list = is_video_file (l2 ++ [n2])%list.
Proof.
  intros l1 l2 n1 n2 H. unfold is_video_file.
  rewrite !suffix_snoc, <- !suffix_lower_name, H. reflexivity.
Qed.

Lemma is_video_file_case_insensitive_witness :
  PyStr.lower "Clip.MKV" = PyStr.lower "CLIP.mkv"
  /\ is_video_file ["a"; "b"; "Clip.MKV"] = is_video_file ["CLIP.mkv"]
  /\ is_video_file ["CLIP.mkv"] = true.
Proof.
  split; [reflexivity|]. split; [|reflexivity].
  exact (is_video_file_case_insensitive ["a"; "b"] [] "Clip.MKV" "CLIP.mkv" eq_refl).
Defined.

(** X2: a name with no dot, a name whose only dot comes first (a hidden
    file such as [.avi]) and a name that ends with a dot have no suffix for
    [pathlib], so none of them is a video file. *)
Theorem names_without_extension_are_not_videos :
  forall (l : path) (s t : string),
    PyStr.contains "." s = false ->
    is_video_file (l ++ [s])%list = false
    /\ is_video_file (l ++ [String "." s])%list = false
    /\ is_video_file (l ++ [(t ++ ".")%string])%list = false.
Proof.
  intros l s t Hs. unfold is_video_file. rewrite !suffix_snoc.
  assert (Hsfx : forall x, PyStr.rfind "." x = None \/ PyStr.rfind "." x = Some 0
                           \/ PyStr.rfind "." x = Some (String.length x - 1) ->
                           pathlib.suffix [x] = "").
  { intros x H. unfold pathlib.suffix.
    change (pathlib.name [x]) with (if x =? "/" then "" else x).
    destruct (x =? "/"); [reflexivity|].
    destruct H as [H|[H|H]]; rewrite H; [reflexivity|reflexivity|].
    rewrite Nat.ltb_irrefl, andb_false_r. reflexivity. }
  repeat split.
  - rewrite Hsfx; [reflexivity|]. left. now apply rfind_none.
  - rewrite Hsfx; [reflexivity|]. right; left.
    cbn. now rewrite (rfind_none "." s Hs).
  - rewrite Hsfx; [reflexivity|]. right; right.
    change (t ++ ".") with (t ++ String "." "").
    rewrite (rfind_app "." t "" eq_refl), str_length_app. cbn. f_equal. lia.
Qed.

Lemma names_without_extension_are_not_videos_witness :
  PyStr.contains "." "avi" = false
  /\ is_video_file ["root"; "avi"] = false
  /\ is_video_file ["root"; ".avi"] = false
  /\ is_video_file ["root"; "movie.avi."] = false.
Proof.
  split; [reflexivity|].
  exact (names_without_extension_are_not_videos ["root"] "avi" "movie.avi" eq_refl).
Defined.

(** ** The command line *)

Lemma parse_args_parsed_inv :
  forall n args o0 r0 o r,
    List.length args <= n ->
    parse_args args o0 r0 = Parsed o r ->
    exists opts,
      args = render opts
      /\ o = last_output_folder opts o0
      /\ r = any_replace opts r0.
Proof.
  induction n as [|n IH]; intros args o0 r0 o r Hn H.
  - destruct args; [|cbn in Hn; lia].
    inversion H; subst. exists []. repeat split.
  - destruct args as [|a rest].
    { inversion H; subst. exists []. repeat split. }
    cbn [List.length] in Hn. cbn [parse_args] in H.
    destruct rest as [|v rest'].
    + destruct (String.eqb_spec a "--replace-original") as [E|E]; [|discriminate].
      subst a. inversion H; subst. exists [OptReplaceOriginal]. repeat split.
    + destruct (String.eqb_spec a "--output-folder") as [E|E].
      * subst a. cbn [List.length] in Hn.
        destruct (IH rest' (Some v) r0 o r ltac:(lia) H) as (opts & E1 & E2 & E3).
        exists (OptOutputFolder v :: opts). subst. repeat split.
      * destruct (String.eqb_spec a "--replace-original") as [E'|E']; [|discriminate].
        subst a.
        destruct (IH (v :: rest') o0 true o r ltac:(lia) H) as (opts & E1 & E2 & E3).
        exists (OptReplaceOriginal :: opts). cbn [render flat_map render_option app].
        fold (render opts). rewrite <- E1. subst. repeat split.
Qed.

(** X3: the argument loop of [main] accepts exactly the sequences of
    well-formed options ([--output-folder <value>], [--replace-original]):
    it ends normally if and only if the arguments are such a sequence, and
    then the output folder is the value of the last [--output-folder] and
    the replace flag is set when [--replace-original] occurs at all. *)
Theorem parse_args_accepts_exactly_options :
  forall (args : list string) (o : option string) (r : bool),
    parse_args args None false = Parsed o r
    <-> exists opts,
          args = render opts
          /\ o = last_output_folder opts None
          /\ r = any_replace opts false.
Proof.
  intros args o r. split.
  - apply (parse_args_parsed_inv (List.length args)). lia.
  - intros (opts & E1 & E2 & E3). subst.
    rewrite <- (app_nil_r (render opts)). apply parse_args_render.
Qed.

Lemma parse_args_unknown_token :
  forall a rest o r,
    a <> "--replace-original" ->
    a <> "--output-folder" \/ rest = [] ->
    parse_args (a :: rest) o r = Unknown a.
Proof.
  intros a rest o r Hr Ho. cbn [parse_args].
  apply String.eqb_neq in Hr. rewrite Hr.
  destruct rest as [|v rest']; [reflexivity|].
  destruct Ho as [Ho|Ho]; [|discriminate].
  apply String.eqb_neq in Ho. now rewrite Ho.
Qed.

(** X4: the first token in option position that is neither
    [--replace-original] nor an [--output-folder] with a value after it
    stops the run: [main] names that token as unknown and returns, whatever
    follows it; the world is unchanged and nothing else happens. *)
Theorem unknown_argument_aborts_before_anything :
  forall (exec : exec_t) (prog folder_path : string) (opts : list cli_option)
         (a : string) (rest : list string) (w : world),
    a <> "--replace-original" ->
    a <> "--output-folder" \/ rest = [] ->
    main exec (prog :: folder_path :: render opts ++ a :: rest)%list w
    = (Ret (UnknownArgument a), w, [EvPrint ("Unknown argument: " ++ a)]).
Proof.
  intros exec prog fp opts a rest w Hr Ho.
  unfold main. rewrite parse_args_render.
  rewrite (parse_args_unknown_token a rest _ _ Hr Ho). reflexivity.
Qed.

Lemma unknown_argument_aborts_before_anything_witness :
  main exec_missing
    ["prog"; "root"; "--output-folder"; "out"; "--verbose"; "--replace-original"]
    (mkWorld fs_scenario ["y"])
  = (Ret (UnknownArgument "--verbose"), mkWorld fs_scenario ["y"],
     [EvPrint "Unknown argument: --verbose"]).
Proof.
  apply (unknown_argument_aborts_before_anything exec_missing "prog" "root"
           [OptOutputFolder "out"] "--verbose" ["--replace-original"]).
  - discriminate.
  - left. discriminate.
Defined.

(** ** Console input *)









Lemma lower_is_y : forall l, (PyStr.lower l =? "y") = (l =? "y") || (l =? "Y").
Proof.
  intros [|c [|d l]]; try reflexivity.
  - destruct c as [[] [] [] [] [] [] [] []]; reflexivity.
  - cbn. destruct (Ascii.eqb (PyStr.lower_char c) "y"),
           (Ascii.eqb c "y"), (Ascii.eqb c "Y"); reflexivity.
Qed.

(** X6: with [--replace-original] (and no output folder) the run turns on
    one line of console input.  Only the answers [y] and [Y] confirm, and
    the run then goes on with the rest of the input; any other line -- [yes],
    an empty line, [y] with a space -- cancels it, with the file system
    untouched and nothing but the prompt and the notice as events; and at end
    of input [input] raises [EOFError], which [main] lets through. *)
Theorem confirmation_accepts_only_y :
  forall (exec : exec_t) (prog folder_path : string) (args : list string)
         (o : option string) (w : world),
    parse_args args None false = Parsed o true ->
    truthy_opt o = false ->
    main exec (prog :: folder_path :: args) w =
    match w_stdin w with
    | [] =>
        (Raise (mkExn EOFError "EOF when reading a line"), w,
         [EvInput confirm_prompt None])
    | l :: r =>
        if (l =? "y") || (l =? "Y") then
          let '(res, w', t) :=
            find_and_transcode_videos exec folder_path o true (mkWorld (w_fs w) r) in
          (map_outcome Ran res, w', EvInput confirm_prompt (Some l) :: t)
        else
          (Ret Cancelled, mkWorld (w_fs w) r,
           [EvInput confirm_prompt (Some l); EvPrint "Cancelled."])
    end.
Proof.
  intros exec prog fp args o w H Ho. rewrite main_spec, H, Ho. cbn [andb].
  destruct (w_stdin w) as [|l r]; [reflexivity|].
  rewrite lower_is_y. destruct ((l =? "y") || (l =? "Y")); reflexivity.
Qed.

Lemma confirmation_accepts_only_y_witness :
  parse_args ["--replace-original"] None false = Parsed None true
  /\ truthy_opt None = false
  /\ main (exec_codec "h264") ["prog"; "root"; "--replace-original"]
       (mkWorld fs_scenario ["yes"; "y"])
     = (Ret Cancelled, mkWorld fs_scenario ["y"],
        [EvInput confirm_prompt (Some "yes"); EvPrint "Cancelled."]).
Proof.
  split; [reflexivity|]. split; [reflexivity|].
  exact (confirmation_accepts_only_y (exec_codec "h264") "prog" "root"
           ["--replace-original"] None (mkWorld fs_scenario ["yes"; "y"])
           eq_refl eq_refl).
Defined.

(** ** The ways out of [find_and_transcode_videos] before any transcoding *)

Lemma is_dir_exists : forall p f, fs_is_dir p f = true -> fs_exists p f = true.
Proof.
  intros p f. unfold fs_is_dir, fs_exists. destruct (fs_kind p f) as [[|]|]; auto.
Qed.

(** X7: when the root is not a directory -- it does not exist, or it is a
    file -- [find_and_transcode_videos] prints the matching error and returns
    at once: the world is unchanged and no process is started, not even the
    version probe of the encoder. *)
Theorem bad_root_aborts_before_any_process :
  forall (exec : exec_t) (folder_path : string) (o : option string) (ro : bool)
         (w : world),
    fs_is_dir (pathlib.Path folder_path) (w_fs w) = false ->
    find_and_transcode_videos exec folder_path o ro w =
    if fs_exists (pathlib.Path folder_path) (w_fs w) then
      (Ret NotADirectory, w,
       [EvPrint ("Error: '" ++ folder_path ++ "' is not a directory.")])
    else
      (Ret FolderMissing, w,
       [EvPrint ("Error: Folder '" ++ folder_path ++ "' does not exist.")]).
Proof.
  intros exec fp o ro w H. rewrite find_and_transcode_videos_spec. cbv zeta.
  rewrite H. destruct (fs_exists (pathlib.Path fp) (w_fs w)); reflexivity.
Qed.

Lemma bad_root_aborts_before_any_process_witness :
  fs_is_dir (pathlib.Path "root/c.txt") fs_scenario = false
  /\ find_and_transcode_videos (exec_codec "h264") "root/c.txt" None true
       (mkWorld fs_scenario [])
     = (Ret NotADirectory, mkWorld fs_scenario [],
        [EvPrint "Error: 'root/c.txt' is not a directory."]).
Proof.
  split; [reflexivity|].
  exact (bad_root_aborts_before_any_process (exec_codec "h264") "root/c.txt" None true
           (mkWorld fs_scenario []) eq_refl).
Defined.

(** X8: on a root that is a directory, the run ends as [ToolNotFound]
    exactly when the version probe raised a [SubprocessError] (a timeout
    included) or a [FileNotFoundError].  The exit code of the probe is not
    looked at, so a probe that completes, with whatever code, passes; and an
    exception of any other class (a [PermissionError], say) is not caught and
    leaves the function. *)
Theorem tool_not_found_iff_probe_raises_caught :
  forall (exec : exec_t) (folder_path : string) (o : option string) (ro : bool)
         (w : world),
    fs_is_dir (pathlib.Path folder_path) (w_fs w) = true ->
    let probe := fst (exec ["ffmpeg"; "-version"] 5%Z (w_fs w)) in
    let res := fst (fst (find_and_transcode_videos exec folder_path o ro w)) in
    (res = Ret ToolNotFound
     <-> exists e, probe = ProcRaise e
                   /\ is_SubprocessError e || is_FileNotFoundError e = true)
    /\ (forall e, probe = ProcRaise e ->
                  is_SubprocessError e || is_FileNotFoundError e = false ->
                  res = Raise e).
Proof.
  intros exec fp o ro w Hd. cbv zeta.
  rewrite find_and_transcode_videos_spec. cbv zeta.
  rewrite Hd, (is_dir_exists _ _ Hd). cbn [negb].
  rewrite check_ffmpeg_spec.
  destruct (exec ["ffmpeg"; "-version"] 5%Z (w_fs w)) as [[rc so se|e] f']; cbn [fst].
  - split; [split|].
    + intro H. exfalso.
      destruct (scan_result (pathlib.Path fp) (w_fs (mkWorld f' (w_stdin w))))
        as [|v vs]; [discriminate H|].
      destruct (transcode_all exec (pathlib.Path fp) o ro (List.length (v :: vs)) 1
                  (v :: vs) 0 (mkWorld f' (w_stdin w))) as [[[s|e] w2] t2];
        discriminate H.
    + intros (e & H & _). discriminate H.
    + intros e H. discriminate H.
  - destruct (is_SubprocessError e || is_FileNotFoundError e) eqn:E; cbn [fst].
    + split; [split|].
      * intros _. exists e. split; [reflexivity|exact E].
      * reflexivity.
      * intros e' H H'. inversion H; subst. congruence.
    + split; [split|].
      * intro H. discriminate H.
      * intros (e' & H & H'). inversion H; subst. congruence.
      * intros e' H _. inversion H; subst. reflexivity.
Qed.

Lemma tool_not_found_iff_probe_raises_caught_witness :
  fs_is_dir (pathlib.Path "root") fs_scenario = true
  /\ fst (fst (find_and_transcode_videos exec_missing "root" None false
                 (mkWorld fs_scenario [])))
     = Ret ToolNotFound.
Proof.
  split; [reflexivity|].
  apply (proj1 (tool_not_found_iff_probe_raises_caught exec_missing "root" None false
                  (mkWorld fs_scenario []) eq_refl)).
  eexists. split; reflexivity.
Defined.

(** X9: when the scan keeps nothing, the run ends as [NothingToTranscode]
    right after the scan: beyond the version probe no process is started
    and no file is touched. *)
Theorem no_candidates_nothing_touched :
  forall (exec : exec_t) (folder_path : string) (o : option string) (ro : bool)
         (w : world) (rc : Z) (so se : string) (f1 : fs),
    fs_is_dir (pathlib.Path folder_path) (w_fs w) = true ->
    exec ["ffmpeg"; "-version"] 5%Z (w_fs w) = (Completed rc so se, f1) ->
    scan_result (pathlib.Path folder_path) f1 = [] ->
    find_and_transcode_videos exec folder_path o ro w
    = (Ret NothingToTranscode, mkWorld f1 (w_stdin w),
       [version_probe (Completed rc so se);
        EvPrint ("Scanning for videos in: " ++ pathlib.str (pathlib.Path folder_path));
        EvPrint (PyStr.times "-" 50);
        EvPrint "No videos found that need transcoding."]).
Proof.
  intros exec fp o ro w rc so se f1 Hd He Hs.
  rewrite find_and_transcode_videos_spec. cbv zeta.
  rewrite Hd, (is_dir_exists _ _ Hd). cbn [negb].
  rewrite check_ffmpeg_spec, He. cbn [w_fs]. rewrite Hs. reflexivity.
Qed.

Lemma no_candidates_nothing_touched_witness :
  fs_is_dir (pathlib.Path "root") fs_hevc = true
  /\ scan_result (pathlib.Path "root") fs_hevc = []
  /\ fst (fst (find_and_transcode_videos (exec_codec "hevc") "root" None true
                 (mkWorld fs_hevc [])))
     = Ret NothingToTranscode.
Proof.
  split; [reflexivity|]. split; [reflexivity|].
  exact (f_equal (fun x => fst (fst x))
           (no_candidates_nothing_touched (exec_codec "hevc") "root" None true
              (mkWorld fs_hevc []) 0%Z "" "" fs_hevc eq_refl eq_refl eq_refl)).
Defined.

(** ** What a run never does *)

Lemma transcode_video_events_gen :
  forall (P : event -> Prop) (exec : exec_t) v out w,
    (forall s, P (EvPrint s)) ->
    (forall o', P (EvRun (ffmpeg_cmd v out) 3600 o')) ->
    Forall P (snd (transcode_video exec v out w)).
Proof.
  intros P exec v out w Hp Hr. rewrite transcode_video_spec. cbv zeta.
  destruct (exec (ffmpeg_cmd v out) 3600%Z (w_fs w)) as [[rc so se|e] f'].
  - destruct (rc =? 0)%Z; cbn [snd app];
      repeat apply Forall_cons; try apply Forall_nil; auto.
  - destruct (is_TimeoutExpired e); [|destruct (is_Exception e)]; cbn [snd app];
      repeat apply Forall_cons; try apply Forall_nil; auto.
Qed.

(** The events of the loop are banners, what [determine_output_path] and
    [remove_original] emit, and the events of [transcode_video]. *)
Lemma transcode_all_events_gen :
  forall (P : event -> Prop) (exec : exec_t) folder o ro,
    (forall s, P (EvPrint s)) ->
    (forall v out o', P (EvRun (ffmpeg_cmd v out) 3600 o')) ->
    (forall v w, Forall P (snd (determine_output_path folder o ro v w))) ->
    (forall v out w, Forall P (snd (remove_original ro v out w))) ->
    forall total vs i c w,
      Forall P (snd (transcode_all exec folder o ro total i vs c w)).
Proof.
  intros P exec folder o ro Hp Hr Hd Hm total vs.
  induction vs as [|v rest IH]; intros i c w; [constructor|].
  rewrite transcode_all_cons. cbv zeta.
  specialize (Hd v w).
  destruct (determine_output_path folder o ro v w) as [[[out|e] w1] t1];
    cbn [snd] in Hd; [|cbn [snd]; constructor; auto].
  pose proof (transcode_video_events_gen P exec v out w1 Hp (Hr v out)) as H2.
  destruct (transcode_video exec v out w1) as [[[[|]|e] w2] t2]; cbn [snd] in H2.
  - specialize (Hm v out w2).
    destruct (remove_original ro v out w2) as [[[[]|e] w3] t3]; cbn [snd] in Hm.
    + specialize (IH (S i) (c + 1) w3).
      destruct (transcode_all exec folder o ro total (S i) rest (c + 1) w3)
        as [[r w4] t4].
      cbn [snd] in *. constructor; [apply Hp|].
      repeat (apply Forall_app; split); assumption.
    + cbn [snd]. constructor; [apply Hp|].
      repeat (apply Forall_app; split); assumption.
  - specialize (IH (S i) c w2).
    destruct (transcode_all exec folder o ro total (S i) rest c w2) as [[r w4] t4].
    cbn [snd] in *. constructor; [apply Hp|].
    repeat (apply Forall_app; split); assumption.
  - cbn [snd]. constructor; [apply Hp|].
    apply Forall_app; split; assumption.
Qed.

Lemma found_lines_prints :
  forall (P : event -> Prop) vs i,
    (forall s, P (EvPrint s)) -> Forall P (found_lines i vs).
Proof.
  intros P vs. induction vs as [|v rest IH]; intros i Hp; cbn; constructor; auto.
Qed.

Lemma find_and_transcode_videos_events_gen :
  forall (P : event -> Prop) (exec : exec_t) folder_path o ro w,
    (forall s, P (EvPrint s)) ->
    (forall o', P (version_probe o')) ->
    (forall total vs i c w',
        Forall P (snd (transcode_all exec (pathlib.Path folder_path) o ro
                         total i vs c w'))) ->
    Forall P (snd (find_and_transcode_videos exec folder_path o ro w)).
Proof.
  intros P exec fp o ro w Hp Hv Hl.
  rewrite find_and_transcode_videos_spec. cbv zeta.
  destruct (negb (fs_exists (pathlib.Path fp) (w_fs w)));
    [cbn; repeat constructor; apply Hp|].
  destruct (negb (fs_is_dir (pathlib.Path fp) (w_fs w)));
    [cbn; repeat constructor; apply Hp|].
  assert (H1 : Forall P (snd (check_ffmpeg exec w))).
  { rewrite check_ffmpeg_spec.
    destruct (exec ["ffmpeg"; "-version"] 5%Z (w_fs w)) as [[rc so se|e] f'];
      [cbn; repeat constructor; apply Hv|].
    destruct (is_SubprocessError e || is_FileNotFoundError e); cbn;
      repeat apply Forall_cons; try apply Forall_nil; auto; apply Hv. }
  destruct (check_ffmpeg exec w) as [[[[|]|e] w1] t1]; cbn [snd] in H1 |- *;
    try exact H1.
  destruct (scan_result (pathlib.Path fp) (w_fs w1)) as [|v vs].
  - apply Forall_app; split; [exact H1|]. repeat constructor; apply Hp.
  - specialize (Hl (List.length (v :: vs)) (v :: vs) 1 0 w1).
    destruct (transcode_all exec (pathlib.Path fp) o ro (List.length (v :: vs)) 1
                (v :: vs) 0 w1) as [[[s|e] w2] t2]; cbn [snd] in Hl |- *.
    + apply Forall_app; split; [exact H1|].
      repeat (apply Forall_cons; [apply Hp|]).
      repeat (apply Forall_app; split);
        auto using found_lines_prints; repeat constructor; apply Hp.
    + apply Forall_app; split; [exact H1|].
      repeat (apply Forall_cons; [apply Hp|]).
      repeat (apply Forall_app; split);
        auto using found_lines_prints; repeat constructor; apply Hp.
Qed.

Lemma mkdirs_are_not_unlinks :
  forall l, Forall (fun e => is_mkdir e = true) l -> Forall (fun e => is_unlink e = false) l.
Proof.
  intros l H. eapply Forall_impl; [|exact H].
  intros [] He; cbn in *; congruence.
Qed.

(** X10: called without [replace_original], [find_and_transcode_videos]
    never deletes a file: no [unlink] is attempted anywhere in the run,
    whatever the encoder does. *)
Theorem nothing_deleted_without_replace_original :
  forall (exec : exec_t) (folder_path : string) (o : option string) (w : world),
    Forall (fun e => is_unlink e = false)
      (snd (find_and_transcode_videos exec folder_path o false w)).
Proof.
  intros exec fp o w.
  apply find_and_transcode_videos_events_gen; try reflexivity.
  intros total vs i c w'.
  apply transcode_all_events_gen; try reflexivity.
  - intros v w0. apply mkdirs_are_not_unlinks, determine_output_path_events.
  - intros v out w0. rewrite remove_original_spec. constructor.
Qed.

(** X11: called without an output folder ([None] or the empty string),
    [find_and_transcode_videos] never creates a directory. *)
Theorem no_directory_created_without_output_folder :
  forall (exec : exec_t) (folder_path : string) (o : option string) (ro : bool)
         (w : world),
    truthy_opt o = false ->
    Forall (fun e => is_mkdir e = false)
      (snd (find_and_transcode_videos exec folder_path o ro w)).
Proof.
  intros exec fp o ro w Ho.
  apply find_and_transcode_videos_events_gen; try reflexivity.
  intros total vs i c w'.
  apply transcode_all_events_gen; try reflexivity.
  - intros v w0. rewrite (determine_output_path_sibling _ _ _ _ _ Ho). constructor.
  - intros v out w0. rewrite remove_original_spec.
    destruct (ro && negb (path_eqb v out)); [|constructor].
    destruct (fs_unlink v (w_fs w0)); repeat constructor.
Qed.

Lemma no_directory_created_without_output_folder_witness :
  truthy_opt (Some "") = false
  /\ Forall (fun e => is_mkdir e = false)
       (snd (find_and_transcode_videos (exec_codec "h264") "root" (Some "") true
               (mkWorld fs_scenario []))).
Proof.
  split; [reflexivity|].
  exact (no_directory_created_without_output_folder (exec_codec "h264") "root"
           (Some "") true (mkWorld fs_scenario []) eq_refl).
Defined.

Lemma quiet_is_known :
  forall l, Forall (fun e => is_run e = false) l -> Forall known_process l.
Proof.
  intros l H. eapply Forall_impl; [|exact H].
  intros [] He; cbn in *; try exact I; discriminate.
Qed.

Lemma find_and_transcode_videos_known_processes :
  forall (exec : exec_t) folder_path o ro w,
    Forall known_process (snd (find_and_transcode_videos exec folder_path o ro w)).
Proof.
  intros exec fp o ro w.
  apply find_and_transcode_videos_events_gen.
  - intro s. exact I.
  - intro o'. left. split; reflexivity.
  - intros total vs i c w'. apply transcode_all_events_gen.
    + intro s. exact I.
    + intros v out o'. right. split; [reflexivity|].
      exists (pathlib.str v), (pathlib.str out). reflexivity.
    + intros v w0. apply quiet_is_known, mkdirs_are_not_runs,
        determine_output_path_events.
    + intros v out w0. apply quiet_is_known, remove_original_quiet.
Qed.

(** X12: the only processes a run of [main] ever starts are [ffmpeg
    -version] with a wait of 5 seconds and the encoder with its fixed
    arguments and a wait of 3600 seconds.  In particular a run never starts
    [ffprobe]: the scan hands no file to the codec probe. *)
Theorem main_starts_only_known_processes :
  forall (exec : exec_t) (argv : list string) (w : world),
    Forall known_process (snd (main exec argv w)).
Proof.
  intros exec argv w.
  destruct argv as [|prog [|fp args]];
    [cbn; repeat constructor|cbn; repeat constructor|].
  rewrite main_spec.
  destruct (parse_args args None false) as [o ro|a]; [|cbn; repeat constructor].
  destruct (ro && truthy_opt o); [cbn; repeat constructor|].
  destruct ro.
  - destruct (w_stdin w) as [|l r]; [cbn; repeat constructor|].
    destruct (negb (PyStr.lower l =? "y")); [cbn; repeat constructor|].
    pose proof (find_and_transcode_videos_known_processes exec fp o true
                  (mkWorld (w_fs w) r)) as H.
    destruct (find_and_transcode_videos exec fp o true (mkWorld (w_fs w) r))
      as [[res w'] tr].
    cbn [snd] in *. constructor; [exact I|exact H].
  - pose proof (find_and_transcode_videos_known_processes exec fp o false w) as H.
    destruct (find_and_transcode_videos exec fp o false w) as [[res w'] tr].
    exact H.
Qed.

(** ** Where outputs go *)

Lemma str_app_assoc : forall a b c : string, (a ++ b) ++ c = a ++ (b ++ c).
Proof.
  induction a as [|x a IH]; intros b c; cbn; [reflexivity|]. now rewrite IH.
Qed.

Lemma str_app_nonempty : forall a b : string, b <> "" -> a ++ b <> "".
Proof.
  intros [|x a] b Hb; cbn; [exact Hb|discriminate].
Qed.

Lemma with_name_result :
  forall p x q, pathlib.with_name p x = Ret q -> q = (removelast p ++ [x])%list.
Proof.
  intros p x q. unfold pathlib.with_name.
  destruct (pathlib.name p =? ""); [discriminate|].
  destruct (negb (pathlib.valid_name x)); [discriminate|].
  intro H. now inversion H.
Qed.

(** Whatever [with_suffix(".mp4")] returns ends in a name [s.mp4] with [s]
    not empty. *)
Lemma with_suffix_mp4_result :
  forall p q,
    pathlib.with_suffix p ".mp4" = Ret q ->
    exists s, s <> "" /\ q = (removelast p ++ [(s ++ ".mp4")%string])%list.
Proof.
  intros p q. unfold pathlib.with_suffix.
  change (negb (pathlib.valid_suffix ".mp4")) with false. cbv iota.
  destruct (String.eqb_spec (pathlib.name p) "") as [E|E]; [discriminate|].
  destruct (String.eqb_spec (pathlib.suffix p) "") as [Es|Es]; intro H;
    inversion H; subst; clear H.
  - exists (pathlib.name p). split; [exact E|reflexivity].
  - eexists. split; [|reflexivity].
    unfold pathlib.suffix in *.
    destruct (PyStr.rfind "." (pathlib.name p)) as [i|] eqn:Er; [|congruence].
    destruct ((0 <? i) && (i <? String.length (pathlib.name p) - 1))%nat eqn:Ec;
      [|congruence].
    apply andb_true_iff in Ec as [E1 E2]. apply Nat.ltb_lt in E1, E2.
    rewrite length_drop.
    replace (String.length (pathlib.name p) - (String.length (pathlib.name p) - i))
      with i by lia.
    intro E0.
    pose proof (length_take (pathlib.name p) i ltac:(lia)) as L.
    rewrite E0 in L. cbn in L. lia.
Qed.

(** In every placement mode the output is a path [l/s.mp4], [s] not empty. *)
Lemma determine_output_path_shape :
  forall folder o ro inp w out w1 t1,
    determine_output_path folder o ro inp w = (Ret out, w1, t1) ->
    exists l s, s <> "" /\ out = (l ++ [(s ++ ".mp4")%string])%list.
Proof.
  intros folder o ro inp w out w1 t1 H.
  destruct (truthy_opt o) eqn:Ho.
  - destruct o as [d|]; [|discriminate]. cbn in Ho.
    rewrite (determine_output_path_folder _ _ _ _ _ Ho) in H. cbv zeta in H.
    destruct (fs_mkdir true true (pathlib.Path d) (w_fs w)) as [f1|e];
      [|discriminate].
    destruct (pathlib.relative_to inp folder) as [rel|e]; [|discriminate].
    destruct (pathlib.with_suffix rel ".mp4") as [rel_mp4|e] eqn:Ew; [|discriminate].
    destruct (fs_mkdir true true
                (pathlib.parent (pathlib.truediv (pathlib.Path d) rel_mp4)) f1);
      [|discriminate].
    inversion H; subst; clear H.
    destruct (with_suffix_mp4_result _ _ Ew) as (s & Hs & E). subst rel_mp4.
    unfold pathlib.truediv.
    destruct (pathlib.is_absolute (removelast rel ++ [(s ++ ".mp4")%string])%list).
    + eauto.
    + exists (pathlib.Path d ++ removelast rel)%list, s.
      split; [exact Hs|now rewrite app_assoc].
  - rewrite (determine_output_path_sibling _ _ _ _ _ Ho) in H.
    inversion H as [[Hr Hw Ht]]; clear H. destruct ro.
    + destruct (with_suffix_mp4_result _ _ Hr) as (s & Hs & E). eauto.
    + apply with_name_result in Hr.
      exists (removelast inp), (pathlib.stem inp ++ "_h264")%string.
      split; [apply str_app_nonempty; discriminate|].
      rewrite Hr. now rewrite str_app_assoc.
Qed.

Lemma output_is_not_a_video_file :
  forall (folder : path) (o : option string) (ro : bool) (inp : path) (w : world),
    match fst (fst (determine_output_path folder o ro inp w)) with
    | Ret out => is_video_file out = false
    | Raise _ => True
    end.
Proof.
  intros folder o ro inp w.
  destruct (determine_output_path folder o ro inp w) as [[[out|e] w1] t1] eqn:E;
    cbn [fst]; [|exact I].
  destruct (determine_output_path_shape _ _ _ _ _ _ _ _ E) as (l & s & Hs & Eo).
  subst out. apply mp4_is_not_a_video_file.
  now rewrite (suffix_of_mp4_name l s Hs).
Qed.

(** X13: in every placement mode the output path that
    [find_and_transcode_videos] computes has the suffix [.mp4] exactly, in
    lower case; and since that extension is not in [VIDEO_EXTENSIONS], an
    output is never a video file for a later scan. *)
Theorem outputs_are_mp4_and_never_rescanned :
  forall (folder : path) (o : option string) (ro : bool) (inp : path) (w : world),
    match fst (fst (determine_output_path folder o ro inp w)) with
    | Ret out => pathlib.suffix out = ".mp4" /\ is_video_file out = false
    | Raise _ => True
    end.
Proof.
  intros folder o ro inp w.
  destruct (determine_output_path folder o ro inp w) as [[[out|e] w1] t1] eqn:E;
    cbn [fst]; [|exact I].
  destruct (determine_output_path_shape _ _ _ _ _ _ _ _ E) as (l & s & Hs & Eo).
  subst out. pose proof (suffix_of_mp4_name l s Hs) as H.
  split; [exact H|]. apply mp4_is_not_a_video_file. now rewrite H.
Qed.

(** X14: for a candidate the output path is never the input path, so the
    encoder never reads and writes the same file; and with
    [replace_original] every successful transcode is followed by exactly
    one [unlink], of the input. *)
Theorem candidate_output_differs_from_input :
  forall (folder : path) (o : option string) (ro : bool) (v : path) (w w2 : world),
    is_video_file v = true ->
    match fst (fst (determine_output_path folder o ro v w)) with
    | Ret out =>
        out <> v
        /\ filter is_unlink (snd (remove_original true v out w2))
           = [EvUnlink v (match fs_unlink v (w_fs w2) with
                          | Ret _ => None
                          | Raise e => Some e
                          end)]
    | Raise _ => True
    end.
Proof.
  intros folder o ro v w w2 Hv.
  pose proof (output_is_not_a_video_file folder o ro v w) as H.
  destruct (fst (fst (determine_output_path folder o ro v w))) as [out|e];
    [|exact I].
  assert (Hne : out <> v) by (intro E; subst; congruence).
  split; [exact Hne|].
  rewrite remove_original_spec.
  assert (Hb : path_eqb v out = false) by (apply path_eqb_neq; congruence).
  rewrite Hb. cbn [andb negb].
  destruct (fs_unlink v (w_fs w2)); reflexivity.
Qed.

Lemma candidate_output_differs_from_input_witness :
  is_video_file ["root"; "clip.MP4.avi"] = true
  /\ fst (fst (determine_output_path ["root"] None true ["root"; "clip.MP4.avi"]
                 (mkWorld fs_scenario [])))
     = Ret ["root"; "clip.MP4.mp4"]
  /\ ["root"; "clip.MP4.mp4"] <> ["root"; "clip.MP4.avi"].
Proof.
  split; [reflexivity|]. split; [reflexivity|].
  exact (proj1 (candidate_output_differs_from_input ["root"] None true
                  ["root"; "clip.MP4.avi"] (mkWorld fs_scenario [])
                  (mkWorld fs_scenario []) eq_refl)).
Defined.

Lemma contains_app :
  forall c a b, PyStr.contains c (a ++ b) = PyStr.contains c a || PyStr.contains c b.
Proof.
  intros c a b. induction a as [|x a IH]; cbn; [reflexivity|].
  now rewrite IH, orb_assoc.
Qed.

Lemma contains_take :
  forall c s i, PyStr.contains c s = false -> PyStr.contains c (PyStr.take i s) = false.
Proof.
  intros c s. induction s as [|x s IH]; intros [|i] H; cbn in *; try reflexivity.
  apply orb_false_iff in H as [Hx Hs]. now rewrite Hx, (IH i Hs).
Qed.

(** X15: without an output folder a candidate [l/nm] is written next to
    itself: to [l/stem_h264.mp4] by default, to [l/stem.mp4] with
    [replace_original], where [stem] is the name up to its last dot.
    Computing that path touches nothing and cannot fail. *)
Theorem sibling_output_path :
  forall (folder : path) (o : option string) (ro : bool) (l : path) (nm : string)
         (w : world),
    truthy_opt o = false ->
    PyStr.contains "/" nm = false ->
    is_video_file (l ++ [nm])%list = true ->
    determine_output_path folder o ro (l ++ [nm])%list w
    = (Ret (l ++ [(pathlib.stem (l ++ [nm])%list
                   ++ (if ro then ".mp4" else "_h264.mp4"))%string])%list,
       w, []).
Proof.
  intros folder o ro l nm w Ho Hslash Hvid.
  assert (Hnm : nm <> "/").
  { intro E. subst nm. rewrite slash_is_not_a_video_file in Hvid. discriminate. }
  pose proof (name_snoc l nm Hnm) as Hname.
  destruct (video_file_name_splits _ Hvid) as (i & Hr & Hi & _ & Hstem).
  rewrite Hname in Hr, Hi, Hstem.
  rewrite (determine_output_path_sibling _ _ _ _ _ Ho), Hstem.
  destruct ro.
  - now rewrite (with_suffix_mp4 l nm i Hnm Hr Hi).
  - unfold pathlib.with_name. rewrite Hname, removelast_last.
    assert (E1 : (nm =? "") = false).
    { apply String.eqb_neq. intro E. subst. cbn in Hi. lia. }
    rewrite E1.
    assert (E2 : pathlib.valid_name (PyStr.take i nm ++ "_h264.mp4") = true).
    { unfold pathlib.valid_name.
      rewrite contains_app, (contains_take "/" nm i Hslash). cbn [orb].
      change (PyStr.contains "/" "_h264.mp4") with false. cbn [negb andb].
      assert (L : forall x, String.length x <> String.length (PyStr.take i nm ++ "_h264.mp4")
                            -> (PyStr.take i nm ++ "_h264.mp4" =? x) = false).
      { intros x Hx. apply String.eqb_neq. intro E. apply Hx. now rewrite E. }
      rewrite !L; [reflexivity| |]; rewrite str_length_app; cbn; lia. }
    rewrite E2. reflexivity.
Qed.

Lemma sibling_output_path_witness :
  truthy_opt None = false
  /\ PyStr.contains "/" "holiday.2019.MOV" = false
  /\ is_video_file ["root"; "sub"; "holiday.2019.MOV"] = true
  /\ determine_output_path ["root"] None false ["root"; "sub"; "holiday.2019.MOV"]
       (mkWorld fs_scenario [])
     = (Ret ["root"; "sub"; "holiday.2019_h264.mp4"], mkWorld fs_scenario [], []).
Proof.
  split; [reflexivity|]. split; [reflexivity|]. split; [reflexivity|].
  exact (sibling_output_path ["root"] None false ["root"; "sub"] "holiday.2019.MOV"
           (mkWorld fs_scenario []) eq_refl eq_refl eq_refl).
Defined.

(** ** The codec probe *)

(** X16: [is_already_h264_mp4] starts at most one process, [ffprobe] with
    its fixed arguments and a wait of 10 seconds, and leaves the console
    input alone.  For a path whose suffix is not [.mp4] it starts none and
    answers [False]; and it answers [True] only for an [.mp4] path whose
    probe ran to completion and printed [h264]. *)
Theorem already_h264_only_on_completed_probe :
  forall (exec : exec_t) (p : path) (w : world),
    let argv := ["ffprobe"; "-v"; "quiet"; "-select_streams"; "v:0";
                 "-show_entries"; "stream=codec_name"; "-of"; "csv=p=0";
                 pathlib.str p] in
    let '(r, w', tr) := is_already_h264_mp4 exec p w in
    w_stdin w' = w_stdin w
    /\ (tr = [] \/ tr = [EvRun argv 10 (fst (exec argv 10%Z (w_fs w)))])
    /\ (PyStr.lower (pathlib.suffix p) <> ".mp4" -> r = Ret false /\ w' = w /\ tr = [])
    /\ (r = Ret true ->
        PyStr.lower (pathlib.suffix p) = ".mp4"
        /\ exists rc out err,
             fst (exec argv 10%Z (w_fs w)) = Completed rc out err
             /\ PyStr.lower (PyStr.strip out) = "h264").
Proof.
  intros exec p w. cbv zeta. rewrite is_already_h264_mp4_spec.
  change ["ffprobe"; "-v"; "quiet"; "-select_streams"; "v:0";
          "-show_entries"; "stream=codec_name"; "-of"; "csv=p=0"; pathlib.str p]
    with (ffprobe_cmd p).
  destruct (String.eqb_spec (PyStr.lower (pathlib.suffix p)) ".mp4") as [E|E];
    cbn [negb].
  - destruct (exec (ffprobe_cmd p) 10%Z (w_fs w)) as [[rc so se|e] f'] eqn:Ex;
      cbn [fst].
    + split; [reflexivity|]. split; [right; reflexivity|].
      split; [intro H; contradiction|].
      intro H. split; [exact E|].
      exists rc, so, se. split; [reflexivity|].
      injection H as Hb. apply String.eqb_eq. exact Hb.
    + destruct (is_SubprocessError e).
      * split; [reflexivity|]. split; [right; reflexivity|].
        split; [intro H; contradiction|]. intro H; discriminate H.
      * split; [reflexivity|]. split; [right; reflexivity|].
        split; [intro H; contradiction|]. intro H; discriminate H.
  - split; [reflexivity|]. split; [left; reflexivity|].
    split; [intros _; repeat split|]. intro H; discriminate H.
Qed.

Lemma lstrip_app_space :
  forall pre y, all_space pre = true -> PyStr.lstrip (pre ++ y) = PyStr.lstrip y.
Proof.
  induction pre as [|c pre IH]; intros y H; cbn in *; [reflexivity|].
  apply andb_true_iff in H as [Hc Hp]. rewrite Hc. now apply IH.
Qed.

Lemma rstrip_all_space : forall s, all_space s = true -> PyStr.rstrip s = "".
Proof.
  induction s as [|c s IH]; intro H; cbn in *; [reflexivity|].
  apply andb_true_iff in H as [Hc Hs]. now rewrite (IH Hs), Hc.
Qed.

Lemma rstrip_app_space :
  forall x post, all_space post = true -> PyStr.rstrip (x ++ post) = PyStr.rstrip x.
Proof.
  induction x as [|c x IH]; intros post H; cbn.
  - now apply rstrip_all_space.
  - now rewrite (IH post H).
Qed.

Lemma rstrip_app_kept :
  forall pre y, PyStr.rstrip y <> "" -> PyStr.rstrip (pre ++ y) = pre ++ PyStr.rstrip y.
Proof.
  induction pre as [|c pre IH]; intros y H; cbn; [reflexivity|].
  rewrite (IH y H).
  destruct (pre ++ PyStr.rstrip y) eqn:E; [|reflexivity].
  exfalso. apply (str_app_nonempty pre _ H). exact E.
Qed.

(** [strip] ignores white space around its argument. *)
Lemma strip_surrounding :
  forall pre core post,
    all_space pre = true -> all_space post = true ->
    PyStr.strip (pre ++ core ++ post) = PyStr.strip core.
Proof.
  intros pre core post Hpre Hpost. unfold PyStr.strip.
  rewrite <- str_app_assoc, (rstrip_app_space (pre ++ core) post Hpost).
  destruct (String.eqb_spec (PyStr.rstrip core) "") as [E|E].
  - assert (Hc : PyStr.rstrip (pre ++ core) = PyStr.rstrip pre).
    { clear Hpre. induction pre as [|c pre IH]; cbn; [exact E|]. now rewrite IH. }
    now rewrite Hc, E, (rstrip_all_space pre Hpre).
  - rewrite (rstrip_app_kept pre core E). now apply lstrip_app_space.
Qed.

(** X17: for an [.mp4] path whose probe completes, the verdict depends on
    the printed codec alone: white space around it, its letter case and the
    exit code of the probe make no difference. *)
Theorem probe_verdict_ignores_space_case_and_exit_code :
  forall (exec : exec_t) (p : path) (w : world) (rc : Z) (pre core post err : string)
         (f' : fs),
    PyStr.lower (pathlib.suffix p) = ".mp4" ->
    exec (ffprobe_cmd p) 10%Z (w_fs w) = (Completed rc (pre ++ core ++ post) err, f') ->
    all_space pre = true ->
    all_space post = true ->
    fst (fst (is_already_h264_mp4 exec p w))
    = Ret (PyStr.lower (PyStr.strip core) =? "h264").
Proof.
  intros exec p w rc pre core post err f' Hs He Hpre Hpost.
  rewrite is_already_h264_mp4_spec, Hs, He. cbn [negb String.eqb fst].
  change (".mp4" =? ".mp4") with true. cbn [negb fst].
  now rewrite (strip_surrounding pre core post Hpre Hpost).
Qed.

Lemma probe_verdict_ignores_space_case_and_exit_code_witness :
  PyStr.lower (pathlib.suffix ["root"; "b.MP4"]) = ".mp4"
  /\ all_space " " = true
  /\ all_space nl = true
  /\ fst (fst (is_already_h264_mp4
                 (fun _ _ f => (Completed 3 (" " ++ "H264" ++ nl) "", f))
                 ["root"; "b.MP4"] (mkWorld fs_scenario [])))
     = Ret true.
Proof.
  split; [reflexivity|]. split; [reflexivity|]. split; [reflexivity|].
  exact (probe_verdict_ignores_space_case_and_exit_code
           (fun _ _ f => (Completed 3 (" " ++ "H264" ++ nl) "", f))
           ["root"; "b.MP4"] (mkWorld fs_scenario []) 3%Z " " "H264" nl ""
           fs_scenario eq_refl eq_refl eq_refl eq_refl).
Defined.

(** ** The whole run *)

Lemma filter_chatter :
  forall (f : event -> bool) (l : list event),
    (forall s, f (EvPrint s) = false) ->
    (forall o, f (version_probe o) = false) ->
    Forall chatter l -> filter f l = [].
Proof.
  intros f l Hp Hv H. apply filter_none.
  eapply Forall_impl; [|exact H].
  intros e [He|[o He]].
  - destruct e; try discriminate He. apply Hp.
  - subst e. apply Hv.
Qed.

Lemma found_lines_chatter : forall vs i, Forall chatter (found_lines i vs).
Proof.
  induction vs as [|v rest IH]; intro i; cbn; constructor; auto.
  left. reflexivity.
Qed.

Lemma check_ffmpeg_chatter :
  forall (exec : exec_t) w, Forall chatter (snd (check_ffmpeg exec w)).
Proof.
  intros exec w. destruct (check_ffmpeg_events exec w) as (o & rest & E & Hp & _).
  rewrite E. constructor; [right; eauto|].
  eapply Forall_impl; [|exact Hp]. intros e He. now left.
Qed.

Lemma scan_result_video_files :
  forall folder f, Forall (fun v => is_video_file v = true) (scan_result folder f).
Proof.
  intros folder f. apply Forall_forall. intros v Hv.
  apply filter_In in Hv as [_ Hv]. now apply andb_true_iff in Hv as [_ Hv].
Qed.

(** A run either ends before the loop, having only talked, or it is the
    loop over the scan's candidates between two stretches of talk. *)
Lemma find_and_transcode_videos_structure :
  forall (exec : exec_t) folder_path o ro w,
    exists pre post,
      Forall chatter pre /\ Forall chatter post
      /\ ((snd (find_and_transcode_videos exec folder_path o ro w) = pre
           /\ forall s t, fst (fst (find_and_transcode_videos exec folder_path o ro w))
                          <> Ret (Finished s t))
          \/ exists w1,
               let vs := scan_result (pathlib.Path folder_path) (w_fs w1) in
               vs <> []
               /\ let '(r, w2, t2) :=
                    transcode_all exec (pathlib.Path folder_path) o ro
                      (List.length vs) 1 vs 0 w1 in
                  find_and_transcode_videos exec folder_path o ro w
                  = (map_outcome (fun s => Finished s (List.length vs)) r, w2,
                     pre ++ t2 ++ post)%list).
Proof.
  intros exec fp o ro w. rewrite find_and_transcode_videos_spec. cbv zeta.
  assert (Hp : forall s, chatter (EvPrint s)) by (intro s; now left).
  destruct (negb (fs_exists (pathlib.Path fp) (w_fs w))).
  { eexists; exists []. split; [|split; [constructor|left; split; [reflexivity|]]].
    - repeat constructor; apply Hp.
    - intros s t H; discriminate H. }
  destruct (negb (fs_is_dir (pathlib.Path fp) (w_fs w))).
  { eexists; exists []. split; [|split; [constructor|left; split; [reflexivity|]]].
    - repeat constructor; apply Hp.
    - intros s t H; discriminate H. }
  pose proof (check_ffmpeg_chatter exec w) as H1.
  destruct (check_ffmpeg exec w) as [[[[|]|e] w1] t1]; cbn [fst snd] in H1 |- *.
  - destruct (scan_result (pathlib.Path fp) (w_fs w1)) as [|v vs] eqn:Es.
    + eexists; exists []. split; [|split; [constructor|left; split; [reflexivity|]]].
      * apply Forall_app; split; [exact H1|]. repeat constructor; apply Hp.
      * intros s t H; discriminate H.
    + exists (t1 ++ [EvPrint ("Scanning for videos in: " ++ pathlib.str (pathlib.Path fp));
                     EvPrint (PyStr.times "-" 50)]
                 ++ EvPrint (nl ++ "Found " ++ PyStr.of_nat (List.length (v :: vs))
                             ++ " video(s) to transcode:")
                 :: found_lines 1 (v :: vs) ++ [EvPrint (nl ++ PyStr.times "=" 50)])%list.
      destruct (transcode_all exec (pathlib.Path fp) o ro (List.length (v :: vs)) 1
                  (v :: vs) 0 w1) as [[[s|e] w2] t2] eqn:El.
      * exists [EvPrint (nl ++ PyStr.times "=" 50);
                EvPrint (summary_line s (List.length (v :: vs)))].
        split; [|split; [repeat constructor; apply Hp|]].
        { apply Forall_app; split; [exact H1|].
          repeat (apply Forall_cons; [apply Hp|]).
          apply Forall_app; split; [apply found_lines_chatter|].
          repeat constructor; apply Hp. }
        right. exists w1. rewrite Es. cbv zeta. split; [discriminate|].
        rewrite El. cbn [map_outcome]. f_equal.
        repeat rewrite <- app_assoc. cbn [app]. repeat rewrite <- app_assoc.
        reflexivity.
      * exists [].
        split; [|split; [constructor|]].
        { apply Forall_app; split; [exact H1|].
          repeat (apply Forall_cons; [apply Hp|]).
          apply Forall_app; split; [apply found_lines_chatter|].
          repeat constructor; apply Hp. }
        right. exists w1. rewrite Es. cbv zeta. split; [discriminate|].
        rewrite El. cbn [map_outcome]. f_equal.
        rewrite app_nil_r. repeat rewrite <- app_assoc. cbn [app].
        repeat rewrite <- app_assoc. reflexivity.
  - exists t1, []. split; [exact H1|]. split; [constructor|].
    left. split; [reflexivity|]. intros s t H; discriminate H.
  - exists t1, []. split; [exact H1|]. split; [constructor|].
    left. split; [reflexivity|]. intros s t H; discriminate H.
Qed.

(** X18: the summary of a finished run is truthful: in [s/t], [t] is the
    number of encoder runs of the whole run and is at least 1, [s] is the
    number of those that exited with code 0, and the remaining [t - s] are
    the runs that failed. *)
Theorem summary_counts_encoder_runs :
  forall (exec : exec_t) (folder_path : string) (o : option string) (ro : bool)
         (w : world),
    match find_and_transcode_videos exec folder_path o ro w with
    | (Ret (Finished s t), _, tr) =>
        1 <= t
        /\ t = List.length (filter is_encoder_run tr)
        /\ s = List.length (filter is_encoder_success tr)
        /\ t - s = List.length (filter is_encoder_failure tr)
    | _ => True
    end.
Proof.
  intros exec fp o ro w.
  destruct (find_and_transcode_videos_structure exec fp o ro w)
    as (pre & post & Hpre & Hpost & [[_ Hn]|(w1 & Hvs & H)]).
  - destruct (find_and_transcode_videos exec fp o ro w) as [[[[| | | |s t]|e] w'] tr];
      try exact I.
    exfalso. exact (Hn s t eq_refl).
  - cbv zeta in H.
    pose proof (transcode_all_accounting exec (pathlib.Path fp) o ro
                  (List.length (scan_result (pathlib.Path fp) (w_fs w1)))
                  (scan_result (pathlib.Path fp) (w_fs w1)) 1 0 w1) as Ha.
    destruct (transcode_all exec (pathlib.Path fp) o ro
                (List.length (scan_result (pathlib.Path fp) (w_fs w1))) 1
                (scan_result (pathlib.Path fp) (w_fs w1)) 0 w1) as [[[s|e] w2] t2].
    + rewrite H. cbn [map_outcome]. cbv zeta in Ha.
      destruct Ha as (_ & _ & Hl & Hs & Hf).
      rewrite !filter_app.
      rewrite (filter_chatter is_encoder_run pre), (filter_chatter is_encoder_run post),
        (filter_chatter is_encoder_success pre), (filter_chatter is_encoder_success post),
        (filter_chatter is_encoder_failure pre), (filter_chatter is_encoder_failure post)
        by (assumption || reflexivity).
      rewrite !app_nil_r. cbn [app].
      destruct (scan_result (pathlib.Path fp) (w_fs w1)); [contradiction|].
      cbn [List.length] in *. repeat split; lia.
    + rewrite H. exact I.
Qed.

Lemma transcode_video_no_unlink :
  forall (exec : exec_t) v out w,
    filter is_unlink (snd (transcode_video exec v out w)) = [].
Proof.
  intros exec v out w. apply filter_none.
  apply transcode_video_events_gen; reflexivity.
Qed.

(** In replace mode the loop unlinks, in order, the inputs of the encoder
    runs that exited with code 0, and nothing else. *)
Lemma transcode_all_unlinks :
  forall (exec : exec_t) folder o total vs i c w,
    Forall (fun v => is_video_file v = true) vs ->
    let tr := snd (transcode_all exec folder o true total i vs c w) in
    map unlinked_path (filter is_unlink tr)
    = map encoder_input (filter is_encoder_success tr).
Proof.
  intros exec folder o total vs.
  induction vs as [|v rest IH]; intros i c w Hvs; [reflexivity|].
  inversion Hvs as [|v' rest' Hv Hrest]; subst. cbv zeta.
  rewrite transcode_all_cons. cbv zeta.
  pose proof (determine_output_path_events folder o true v w) as Hd.
  pose proof (output_is_not_a_video_file folder o true v w) as Hout.
  destruct (determine_output_path folder o true v w) as [[[out|e] w1] t1];
    cbn [fst snd] in Hd, Hout;
    pose proof (filter_none is_unlink _ (mkdirs_are_not_unlinks _ Hd)) as Hu1;
    destruct (not_run_not_encoder _ (mkdirs_are_not_runs _ Hd)) as (_ & Hs1 & _).
  2:{ cbn [snd filter is_unlink is_encoder_success]. now rewrite Hu1, Hs1. }
  pose proof (transcode_video_runs exec v out w1) as Hv2. cbv zeta in Hv2.
  pose proof (transcode_video_no_unlink exec v out w1) as Hu2.
  destruct (transcode_video exec v out w1) as [[[b|e] w2] t2]; cbn [snd] in Hu2.
  2:{ destruct Hv2 as (_ & _ & Hs2 & _ & Hb).
      cbn [snd filter is_unlink is_encoder_success].
      rewrite !filter_app, Hu1, Hs1, Hu2, Hs2, Hb. reflexivity. }
  destruct Hv2 as (_ & _ & Hs2 & _ & Hb).
  destruct b.
  - assert (Hne : path_eqb v out = false).
    { apply path_eqb_neq. intro E. subst. congruence. }
    pose proof (remove_original_spec true v out w2) as H3.
    rewrite Hne in H3. cbn [andb negb] in H3.
    destruct (remove_original_quiet true v out w2) as [_ Hq].
    destruct (not_run_not_encoder _ Hq) as (_ & Hs3 & _).
    specialize (IH (S i) (c + 1)).
    destruct (fs_unlink v (w_fs w2)) as [f''|e]; rewrite H3 in Hs3 |- *;
      cbn [snd] in Hs3.
    + specialize (IH (mkWorld f'' (w_stdin w2)) Hrest). cbv zeta in IH.
      destruct (transcode_all exec folder o true total (S i) rest (c + 1)
                  (mkWorld f'' (w_stdin w2))) as [[r w4] t4].
      cbn [snd] in *. cbn [filter is_unlink is_encoder_success].
      rewrite !filter_app, Hu1, Hs1, Hu2, Hs2, Hs3, <- Hb.
      cbn [filter is_unlink app map unlinked_path]. rewrite IH. reflexivity.
    + specialize (IH w2 Hrest). cbv zeta in IH.
      destruct (transcode_all exec folder o true total (S i) rest (c + 1) w2)
        as [[r w4] t4].
      cbn [snd] in *. cbn [filter is_unlink is_encoder_success].
      rewrite !filter_app, Hu1, Hs1, Hu2, Hs2, Hs3, <- Hb.
      cbn [filter is_unlink app map unlinked_path]. rewrite IH. reflexivity.
  - specialize (IH (S i) c w2 Hrest). cbv zeta in IH.
    destruct (transcode_all exec folder o true total (S i) rest c w2)
      as [[r w4] t4].
    cbn [snd] in *. cbn [filter is_unlink is_encoder_success].
    rewrite !filter_app, Hu1, Hs1, Hu2, Hs2, <- Hb. cbn [app]. exact IH.
Qed.

(** X19: with [replace_original], the files a run unlinks are exactly the
    inputs of the encoder runs that exited with code 0, in that order: an
    original is removed only after its own transcode succeeded, and the
    original of a failed transcode is kept. *)
Theorem originals_removed_exactly_after_success :
  forall (exec : exec_t) (folder_path : string) (o : option string) (w : world),
    let tr := snd (find_and_transcode_videos exec folder_path o true w) in
    map unlinked_path (filter is_unlink tr)
    = map encoder_input (filter is_encoder_success tr).
Proof.
  intros exec fp o w. cbv zeta.
  destruct (find_and_transcode_videos_structure exec fp o true w)
    as (pre & post & Hpre & Hpost & [[E _]|(w1 & Hvs & H)]).
  - rewrite E.
    rewrite (filter_chatter is_unlink), (filter_chatter is_encoder_success)
      by (assumption || reflexivity).
    reflexivity.
  - cbv zeta in H.
    pose proof (transcode_all_unlinks exec (pathlib.Path fp) o
                  (List.length (scan_result (pathlib.Path fp) (w_fs w1)))
                  (scan_result (pathlib.Path fp) (w_fs w1)) 1 0 w1
                  (scan_result_video_files _ _)) as Hl.
    cbv zeta in Hl.
    destruct (transcode_all exec (pathlib.Path fp) o true
                (List.length (scan_result (pathlib.Path fp) (w_fs w1))) 1
                (scan_result (pathlib.Path fp) (w_fs w1)) 0 w1) as [[r w2] t2].
    rewrite H. cbn [snd] in *.
    rewrite !filter_app.
    rewrite (filter_chatter is_unlink pre), (filter_chatter is_unlink post),
      (filter_chatter is_encoder_success pre), (filter_chatter is_encoder_success post)
      by (assumption || reflexivity).
    rewrite !app_nil_r. cbn [app]. exact Hl.
Qed.

(** X20: failing to create the output folder is fatal, unlike a failing
    encoder: the exception leaves the loop at that candidate, before any
    encoder run, and the candidates after it are not looked at. *)
Theorem mkdir_failure_ends_the_run :
  forall (exec : exec_t) (folder : path) (out : string) (ro : bool)
         (total i : nat) (v : path) (rest : list path) (c : nat) (w : world) (e : exn),
    PyStr.truthy out = true ->
    fs_mkdir true true (pathlib.Path out) (w_fs w) = Raise e ->
    transcode_all exec folder (Some out) ro total i (v :: rest) c w
    = (Raise e, w,
       [EvPrint (nl ++ "[" ++ PyStr.of_nat i ++ "/" ++ PyStr.of_nat total ++ "]");
        EvMkdir (pathlib.Path out) true true (Some e)]).
Proof.
  intros exec folder out ro total i v rest c w e Hout Hm.
  rewrite transcode_all_cons. cbv zeta.
  rewrite (determine_output_path_folder _ _ _ _ _ Hout). cbv zeta.
  rewrite Hm. reflexivity.
Qed.

Lemma mkdir_failure_ends_the_run_witness :
  PyStr.truthy "root/c.txt" = true
  /\ fs_mkdir true true (pathlib.Path "root/c.txt") fs_scenario
     = Raise (mk_exn FileExistsError ["root"; "c.txt"])
  /\ transcode_all (exec_codec "h264") ["root"] (Some "root/c.txt") false 1 1
       [["root"; "a.avi"]] 0 (mkWorld fs_scenario [])
     = (Raise (mk_exn FileExistsError ["root"; "c.txt"]), mkWorld fs_scenario [],
        [EvPrint (nl ++ "[1/1]");
         EvMkdir ["root"; "c.txt"] true true
           (Some (mk_exn FileExistsError ["root"; "c.txt"]))]).
Proof.
  split; [reflexivity|]. split; [reflexivity|].
  exact (mkdir_failure_ends_the_run (exec_codec "h264") ["root"] "root/c.txt" false
           1 1 ["root"; "a.avi"] [] 0 (mkWorld fs_scenario [])
           (mk_exn FileExistsError ["root"; "c.txt"]) eq_refl eq_refl).
Defined.

(** ** The allow-list *)

Lemma suffix_of_extension :
  forall (stem b : string),
    stem <> "" -> b <> "" -> PyStr.contains "." b = false ->
    pathlib.suffix [(stem ++ String "." b)%string] = String "." b.
Proof.
  intros stem b Hs Hb Hdot.
  assert (Hn : stem ++ String "." b <> "/").
  { intro E. apply (f_equal String.length) in E.
    rewrite str_length_app in E. destruct stem; [congruence|].
    cbn in E. lia. }
  unfold pathlib.suffix.
  change (pathlib.name [(stem ++ String "." b)%string])
    with (if stem ++ String "." b =? "/" then "" else stem ++ String "." b).
  apply String.eqb_neq in Hn. rewrite Hn.
  rewrite (rfind_app "." stem b Hdot), str_length_app.
  assert (0 < String.length stem) by (destruct stem; [congruence|cbn; lia]).
  assert (0 < String.length b) by (destruct b; [congruence|cbn; lia]).
  assert (E : ((0 <? String.length stem)
               && (String.length stem
                   <? String.length stem + String.length (String "." b) - 1))%nat
              = true).
  { apply andb_true_iff. split; apply Nat.ltb_lt; cbn; lia. }
  rewrite E. apply drop_app_length.
Qed.

Lemma listed_extension_shape :
  forall ext,
    In ext VIDEO_EXTENSIONS ->
    exists b, ext = String "." b /\ b <> "" /\ PyStr.contains "." b = false
              /\ str_in (PyStr.lower ext) VIDEO_EXTENSIONS = true.
Proof.
  intros ext H. unfold VIDEO_EXTENSIONS in H. cbn [In] in H.
  repeat (destruct H as [H|H];
          [subst ext; eexists; split; [reflexivity|];
           split; [discriminate|]; split; reflexivity|]).
  contradiction.
Qed.

(** X21: every name made of a non-empty stem and one of the twenty listed
    extensions is a video file, in any casing of the name and in any
    directory. *)
Theorem listed_extensions_are_video_files :
  forall (l : path) (stem ext n : string),
    stem <> "" ->
    In ext VIDEO_EXTENSIONS ->
    PyStr.lower n = PyStr.lower (stem ++ ext) ->
    is_video_file (l ++ [n])%list = true.
Proof.
  intros l stem ext n Hs Hin Hn.
  destruct (listed_extension_shape ext Hin) as (b & E & Hb & Hdot & Hlist).
  unfold is_video_file.
  rewrite suffix_snoc, <- suffix_lower_name, Hn, suffix_lower_name.
  subst ext. now rewrite (suffix_of_extension stem b Hs Hb Hdot).
Qed.

Lemma listed_extensions_are_video_files_witness :
  "My Film" <> ""
  /\ In ".m2ts" VIDEO_EXTENSIONS
  /\ PyStr.lower "MY FILM.M2TS" = PyStr.lower ("My Film" ++ ".m2ts")
  /\ is_video_file ["root"; "MY FILM.M2TS"] = true.
Proof.
  assert (H1 : "My Film" <> "") by discriminate.
  assert (H2 : In ".m2ts" VIDEO_EXTENSIONS) by (cbn; tauto).
  split; [exact H1|]. split; [exact H2|]. split; [reflexivity|].
  exact (listed_extensions_are_video_files ["root"] "My Film" ".m2ts" "MY FILM.M2TS"
           H1 H2 eq_refl).
Defined.
